(** * Lightdash: semantic-layer service, SQL-runner hook and create-group modal

    A shallow embedding of three source files:

    - [packages/backend/src/services/SemanticLayerService/SemanticLayerService.ts]
    - [packages/frontend/src/features/semanticViewer/components/RunSemanticQueryButton.tsx]
      (the button component, and the part that defines the [useSqlQueryRun] hook)
    - [packages/frontend/src/components/UserSettings/UsersAndGroupsPanel/CreateGroupModal.tsx]

    Asynchronous TypeScript functions are modelled in a small monad [Async]:
    a computation is the list of observable calls it made to its
    collaborators, in order, together with the value it resolved to or the
    error it rejected with. *)

From Stdlib Require Import String List Bool NArith Lia DecimalString.
Import ListNotations.
Open Scope string_scope.
Open Scope list_scope.

(** ** Promises with an observable call log *)

Module Async.

Section Def.
Context {Ev Err : Type}.

(** [fst]: the calls made so far, oldest first; [snd]: rejection or value. *)
Definition t (A : Type) : Type := (list Ev * (Err + A))%type.

Definition resolve {A} (a : A) : t A := ([], inr a).
Definition reject {A} (e : Err) : t A := ([], inl e).

(** The result of a collaborator, which the caller cannot observe before
    it has been awaited. *)
Definition settle {A} (r : Err + A) : t A := ([], r).

Definition emit (e : Ev) : t unit := ([e], inr tt).

(** [await]: a rejection of [m] skips the continuation. *)
Definition bind {A B} (m : t A) (k : A -> t B) : t B :=
  match m with
  | (tr, inl e) => (tr, inl e)
  | (tr, inr a) => (tr ++ fst (k a), snd (k a))
  end.

(** [try { m } catch (e) { h e }]. *)
Definition try_catch {A} (m : t A) (h : Err -> t A) : t A :=
  match m with
  | (tr, inl e) => (tr ++ fst (h e), snd (h e))
  | (tr, inr a) => (tr, inr a)
  end.

Definition events {A} (m : t A) : list Ev := fst m.
Definition outcome {A} (m : t A) : Err + A := snd m.

(** The error a computation rejected with, whatever its result type. *)
Definition thrown {A} (m : t A) : option Err :=
  match snd m with
  | inl e => Some e
  | inr _ => None
  end.
End Def.

Arguments t : clear implicits.

End Async.

Notation "'let*' x ':=' m 'in' k" :=
  (Async.bind m (fun x => k))
    (at level 10, x pattern, m at level 100, k at level 200).
Notation "m ';;' k" :=
  (Async.bind m (fun _ => k))
    (at level 100, k at level 200, right associativity).

(** ** The backend service *)

Module SemanticLayerService.

Import Async.

Inductive LightdashError : Type :=
| ForbiddenError
| MissingConfigError (message : string)
| UpstreamError (message : string).

(** Which of the service's two client fields a selection returns:
    [this.dbtCloudClient] or [this.cubeClient]. *)
Inductive SelectedClient : Type :=
| DbtCloudClient
| CubeClient.

Record DbtCloudConfig : Type := {
  bearerToken : option string;
  environmentId : option string
}.

Record CubeConfig : Type := {
  token : option string;
  domain : option string
}.

Record LightdashConfig : Type := {
  dbtCloud : DbtCloudConfig;
  cube : CubeConfig;
  siteUrl : string
}.

(** JavaScript's [!!v] on a value of type [string | undefined]: [undefined]
    and the empty string are falsy. *)
Definition truthy (v : option string) : bool :=
  match v with
  | Some s => negb (s =? "")
  | None => false
  end.

Record Project : Type := {
  organizationUuid : string
}.

(** [subject('Project', { organizationUuid, projectUuid })]. *)
Record Subject : Type := {
  subjectType : string;
  subjectOrganizationUuid : string;
  subjectProjectUuid : string
}.

Record Ability : Type := {
  cannot : string -> Subject -> bool
}.

Record SessionUser : Type := {
  userUuid : string;
  ability : Ability
}.

Set Implicit Arguments.

Section Service.
(** The transport-level types of [@lightdash/common], which the service
    passes through without looking inside. *)
Variables SemanticLayerQuery SemanticLayerView SemanticLayerField
          SemanticLayerSelectedFields ResultRow : Type.

Record SemanticLayerQueryPayload : Type := {
  payloadUserUuid : string;
  payloadProjectUuid : string;
  payloadQuery : SemanticLayerQuery;
  payloadContext : string
}.

(** Every call the service makes to a collaborator. *)
Inductive Event : Type :=
| ProjectModelGet (projectUuid : string)
| ClientGetViews (c : SelectedClient)
| ClientGetFields (c : SelectedClient) (view : string)
                  (selectedFields : SemanticLayerSelectedFields)
| ClientGetSql (c : SelectedClient) (query : SemanticLayerQuery)
| ClientStreamResults (c : SelectedClient) (projectUuid : string)
                      (query : SemanticLayerQuery)
| SchedulerSemanticLayerStreamingResults (payload : SemanticLayerQueryPayload)
| AnalyticsTrack (event userId organizationId projectId : string)
                 (viewCount : option nat)
| LoggerDebug (message : string)
| FileWrite (row : ResultRow)
| FileUpload (url : string).

Definition is_client_call (e : Event) : bool :=
  match e with
  | ClientGetViews _ | ClientGetFields _ _ _ | ClientGetSql _ _
  | ClientStreamResults _ _ _ => true
  | _ => false
  end.

Definition is_scheduler_call (e : Event) : bool :=
  match e with
  | SchedulerSemanticLayerStreamingResults _ => true
  | _ => false
  end.

Definition is_file_write (e : Event) : bool :=
  match e with
  | FileWrite _ => true
  | _ => false
  end.

Definition is_project_lookup (e : Event) : bool :=
  match e with
  | ProjectModelGet _ => true
  | _ => false
  end.

Definition Promise (A : Type) : Type := Async.t Event LightdashError A.

(** The interface the two clients share; what each method answers is the
    client's business. Of [streamResults]: the batches of rows it hands to
    its callback, one after the other, and how it ends after the last of
    them, resolved or with an error thrown. *)
Record SemanticLayerClient : Type := {
  client_getViews : LightdashError + list SemanticLayerView;
  client_getFields :
    string -> SemanticLayerSelectedFields -> LightdashError + list SemanticLayerField;
  client_getSql : SemanticLayerQuery -> LightdashError + string;
  client_streamResults :
    string -> SemanticLayerQuery -> list (list ResultRow) * (LightdashError + unit)
}.

(** The fields of [this] that the methods read. *)
Record Service : Type := {
  lightdashConfig : LightdashConfig;
  projectModel : string -> LightdashError + Project;
  schedulerClient : SemanticLayerQueryPayload -> LightdashError + string;
  cubeClient : SemanticLayerClient;
  dbtCloudClient : SemanticLayerClient;
  downloadFileModel : string -> LightdashError + string
}.

Definition clientImpl (this : Service) (c : SelectedClient) : SemanticLayerClient :=
  match c with
  | DbtCloudClient => dbtCloudClient this
  | CubeClient => cubeClient this
  end.

(** *** Calls to collaborators *)

Definition projectModel_get (this : Service) (projectUuid : string) : Promise Project :=
  emit (ProjectModelGet projectUuid) ;; settle (projectModel this projectUuid).

Definition getViews_of (this : Service) (c : SelectedClient)
  : Promise (list SemanticLayerView) :=
  emit (ClientGetViews c) ;; settle (client_getViews (clientImpl this c)).

Definition getFields_of (this : Service) (c : SelectedClient) (view : string)
           (selectedFields : SemanticLayerSelectedFields)
  : Promise (list SemanticLayerField) :=
  emit (ClientGetFields c view selectedFields) ;;
  settle (client_getFields (clientImpl this c) view selectedFields).

Definition getSql_of (this : Service) (c : SelectedClient) (query : SemanticLayerQuery)
  : Promise string :=
  emit (ClientGetSql c query) ;; settle (client_getSql (clientImpl this c) query).

(** [rows.forEach(writer)] *)
Fixpoint forEach {A} (rows : list A) (writer : A -> Promise unit) : Promise unit :=
  match rows with
  | [] => resolve tt
  | r :: rest => writer r ;; forEach rest writer
  end.

(** [client.streamResults(projectUuid, query, callback)]: the callback is
    awaited once per batch, as the batches come; the stream may throw after
    batches that were already handed over. *)
Definition streamResults_of (this : Service) (c : SelectedClient) (projectUuid : string)
           (query : SemanticLayerQuery) (callback : list ResultRow -> Promise unit)
  : Promise unit :=
  emit (ClientStreamResults c projectUuid query) ;;
  let stream := client_streamResults (clientImpl this c) projectUuid query in
  forEach (fst stream) callback ;;
  settle (snd stream).

Definition semanticLayerStreamingResults (this : Service)
           (payload : SemanticLayerQueryPayload) : Promise string :=
  emit (SchedulerSemanticLayerStreamingResults payload) ;;
  settle (schedulerClient this payload).

Record AnalyticsPayload : Type := {
  event : string;
  userId : string;
  organizationId : string;
  projectId : string
}.

Definition track (p : AnalyticsPayload) (suffix : string) (viewCount : option nat)
  : Promise unit :=
  emit (AnalyticsTrack (event p ++ suffix)%string (userId p) (organizationId p)
                       (projectId p) viewCount).

(** Modelled from the spec: [LightdashAnalytics.wrapEvent] is not among the
    source files. The call site documents it ("started, completed, error
    suffix when using wrapEvent", "extra properties for analytic event after
    the function is executed"): it tracks the started event, runs the
    function, and tracks completed with the extra properties or error, the
    function's result or rejection being its own. *)
Definition wrapEvent {A} (p : AnalyticsPayload) (func : Promise A)
           (extraProperties : A -> option nat) : Promise A :=
  track p ".started" None ;;
  try_catch
    (let* results := func in
     track p ".completed" (extraProperties results) ;;
     resolve results)
    (fun e => track p ".error" None ;; reject e).

(** Modelled from the spec: [DownloadFileModel.streamFunction] is not among
    the source files ("streaming results into a file"): it runs the callback
    with a writer that appends a row to the file, then stores the file and
    answers with its URL. *)
Definition streamFunction (this : Service) (url : string)
           (callback : (ResultRow -> Promise unit) -> Promise unit) : Promise string :=
  callback (fun row => emit (FileWrite row)) ;;
  emit (FileUpload url) ;;
  settle (downloadFileModel this url).

(** *** The methods of the class *)

Definition checkCanViewProject (this : Service) (user : SessionUser)
           (projectUuid : string) : Promise Project :=
  let* project := projectModel_get this projectUuid in
  if cannot (ability user) "view"
            {| subjectType := "Project";
               subjectOrganizationUuid := organizationUuid project;
               subjectProjectUuid := projectUuid |}
  then reject ForbiddenError
  else resolve project.

Definition getSemanticLayerClient (this : Service) (projectUuid : string)
  : Promise SelectedClient :=
  if truthy (bearerToken (dbtCloud (lightdashConfig this)))
     && truthy (environmentId (dbtCloud (lightdashConfig this)))
  then resolve DbtCloudClient
  else if truthy (token (cube (lightdashConfig this)))
          && truthy (domain (cube (lightdashConfig this)))
  then resolve CubeClient
  else reject (MissingConfigError "No semantic layer available").

Definition getViews (this : Service) (user : SessionUser) (projectUuid : string)
  : Promise (list SemanticLayerView) :=
  let* project := checkCanViewProject this user projectUuid in
  wrapEvent
    {| event := "semantic_layer.get_views";
       userId := userUuid user;
       organizationId := organizationUuid project;
       projectId := projectUuid |}
    (let* client := getSemanticLayerClient this projectUuid in
     getViews_of this client)
    (fun result => Some (length result)).

Definition getFields (this : Service) (user : SessionUser) (projectUuid : string)
           (view : string) (selectedFields : SemanticLayerSelectedFields)
  : Promise (list SemanticLayerField) :=
  checkCanViewProject this user projectUuid ;;
  let* client := getSemanticLayerClient this projectUuid in
  getFields_of this client view selectedFields.

Definition getStreamingResults (this : Service) (user : SessionUser)
           (projectUuid : string) (query : SemanticLayerQuery) : Promise string :=
  checkCanViewProject this user projectUuid ;;
  getSemanticLayerClient this projectUuid ;;
  let* jobId :=
    semanticLayerStreamingResults this
      {| payloadProjectUuid := projectUuid;
         payloadUserUuid := userUuid user;
         payloadQuery := query;
         payloadContext := "semanticViewer" |} in
  resolve jobId.

Definition streamQueryIntoFile (this : Service) (payload : SemanticLayerQueryPayload)
  : Promise string :=
  let projectUuid := payloadProjectUuid payload in
  emit (LoggerDebug ("Streaming query into file for project " ++ projectUuid)%string) ;;
  let* client := getSemanticLayerClient this projectUuid in
  let* fileUrl :=
    streamFunction this
      (siteUrl (lightdashConfig this) ++ "/api/v2/projects/" ++ projectUuid
         ++ "/semantic-layer/results")%string
      (fun writer =>
         streamResults_of this client projectUuid (payloadQuery payload)
           (fun rows => forEach rows writer)) in
  resolve fileUrl.

Definition getSql (this : Service) (user : SessionUser) (projectUuid : string)
           (query : SemanticLayerQuery) : Promise string :=
  checkCanViewProject this user projectUuid ;;
  let* client := getSemanticLayerClient this projectUuid in
  getSql_of this client query.

(** *** Vocabulary of the specification *)

(** No call to a semantic-layer client and no job handed to the scheduler. *)
Definition no_client_or_scheduler_call (evs : list Event) : bool :=
  forallb (fun e => negb (is_client_call e || is_scheduler_call e)) evs.

(** The caller may view the project: the check resolves. *)
Definition may_view (this : Service) (user : SessionUser) (projectUuid : string) : Prop :=
  exists project, outcome (checkCanViewProject this user projectUuid) = inr project.

(** The check finds the project and the user's ability denies viewing it. *)
Definition permission_denied (this : Service) (user : SessionUser) (projectUuid : string)
  : Prop :=
  exists project,
    projectModel this projectUuid = inr project
    /\ cannot (ability user) "view"
              {| subjectType := "Project";
                 subjectOrganizationUuid := organizationUuid project;
                 subjectProjectUuid := projectUuid |} = true.

(** An operation resolves the project before anything else, and a denied
    permission ends it there with a [ForbiddenError]. *)
Definition checks_permission_first {A} (this : Service) (user : SessionUser)
           (projectUuid : string) (op : Promise A) : Prop :=
  (exists rest, events op = ProjectModelGet projectUuid :: rest)
  /\ (permission_denied this user projectUuid ->
      thrown op = Some ForbiddenError /\ events op = [ProjectModelGet projectUuid]).

End Service.

Unset Implicit Arguments.

(** A configuration value is set: it is there and it is not empty. *)
Definition is_set (v : option string) : Prop :=
  exists s, v = Some s /\ s <> "".

Definition dbtCloud_configured (c : LightdashConfig) : Prop :=
  is_set (bearerToken (dbtCloud c)) /\ is_set (environmentId (dbtCloud c)).

Definition cube_configured (c : LightdashConfig) : Prop :=
  is_set (token (cube c)) /\ is_set (domain (cube c)).

Arguments ProjectModelGet {_ _ _} projectUuid.
Arguments ClientGetViews {_ _ _} c.
Arguments ClientGetFields {_ _ _} c view selectedFields.
Arguments ClientGetSql {_ _ _} c query.
Arguments ClientStreamResults {_ _ _} c projectUuid query.
Arguments SchedulerSemanticLayerStreamingResults {_ _ _} payload.
Arguments AnalyticsTrack {_ _ _} event userId organizationId projectId viewCount.
Arguments LoggerDebug {_ _ _} message.
Arguments FileWrite {_ _ _} row.
Arguments FileUpload {_ _ _} url.
Arguments track {_ _ _} p suffix viewCount.

End SemanticLayerService.

(** ** The SQL-runner hook *)

Module SqlQueryRun.

Import Async.

Inductive SchedulerJobStatus : Type :=
| SCHEDULED
| STARTED
| COMPLETED
| ERROR.

Definition status_is_error (s : SchedulerJobStatus) : bool :=
  match s with
  | ERROR => true
  | _ => false
  end.

Record ApiError : Type := {
  errorName : string;
  errorMessage : string
}.

(** The body [scheduleSqlJob] posts: [{ sql, limit }]. *)
Record SqlRunnerBody : Type := {
  sql : string;
  limit : option nat
}.

Record ApiJobScheduled : Type := {
  jobId : string
}.

Set Implicit Arguments.

Section Hook.
Variables ResultRow SqlColumn : Type.

(** [job.details], as the hook tells its shapes apart: falsy, carrying an
    error message, or carrying the results file and its columns. *)
Inductive JobDetails : Type :=
| NoDetails
| ErrorDetails (error : string)
| FileDetails (fileUrl : string) (columns : list SqlColumn).

Record Job : Type := {
  status : SchedulerJobStatus;
  details : JobDetails
}.

(** What JavaScript throws when a property is read of [undefined]. *)
Definition typeError : ApiError :=
  {| errorName := "TypeError";
     errorMessage := "Cannot read properties of undefined (reading 'error')" |}.

(** Modelled from the spec: the type guard [isErrorDetails] of
    [@lightdash/common] is not among the source files. It tells by the
    [error] property of its argument ("job errors"), which it reads without
    asking whether the argument is there: it recognises the details that
    carry an error message, and on details that are not there the read
    throws a [TypeError]. *)
Definition isErrorDetails (d : JobDetails) : ApiError + bool :=
  match d with
  | NoDetails => inl typeError
  | ErrorDetails _ => inr true
  | FileDetails _ _ => inr false
  end.

(** [job.details && ...]: are the details there at all? *)
Definition details_present (d : JobDetails) : bool :=
  match d with
  | NoDetails => false
  | _ => true
  end.

(** The property reads [details.error], [details.fileUrl] and
    [details.columns]; a property that is not there reads as [undefined]. *)
Definition details_error (d : JobDetails) : option string :=
  match d with
  | ErrorDetails e => Some e
  | _ => None
  end.

Definition details_fileUrl (d : JobDetails) : option string :=
  match d with
  | FileDetails u _ => Some u
  | _ => None
  end.

Definition details_columns (d : JobDetails) : list SqlColumn :=
  match d with
  | FileDetails _ c => c
  | _ => []
  end.

Record ResultsAndColumns : Type := {
  results : list ResultRow;
  columns : list SqlColumn
}.

(** What the hook does that its surroundings can see. *)
Inductive UiEvent : Type :=
| LightdashApi (url method : string) (body : SqlRunnerBody)
| GetSqlRunnerCompleteJob (jobId : string)
| GetResultsFromStream (url : option string)
| ShowToastError (title : string) (subtitle : option string)
| OnSuccess (data : option ResultsAndColumns).






Definition Promise (A : Type) : Type := Async.t UiEvent ApiError A.

(** The server as it answers during one run of the mutation. *)
Record Server : Type := {
  lightdashApi_response : string -> string -> SqlRunnerBody -> ApiError + ApiJobScheduled;
  completeJob_response : string -> ApiError + Job;
  stream_response : option string -> ApiError + list ResultRow
}.

Definition lightdashApi (srv : Server) (url method : string) (body : SqlRunnerBody)
  : Promise ApiJobScheduled :=
  emit (LightdashApi url method body) ;;
  settle (lightdashApi_response srv url method body).

Definition getSqlRunnerCompleteJob (srv : Server) (jobId : string) : Promise Job :=
  emit (GetSqlRunnerCompleteJob jobId) ;; settle (completeJob_response srv jobId).

Definition getResultsFromStream (srv : Server) (url : option string)
  : Promise (list ResultRow) :=
  emit (GetResultsFromStream url) ;; settle (stream_response srv url).

Definition showToastError (title : string) (subtitle : option string) : Promise unit :=
  emit (ShowToastError title subtitle).

Definition scheduleSqlJob (srv : Server) (projectUuid : string) (sql : string)
           (limit : option nat) : Promise ApiJobScheduled :=
  lightdashApi srv ("/projects/" ++ projectUuid ++ "/sqlRunner/run")%string "POST"
               {| sql := sql; limit := limit |}.

(** [job.details && !isErrorDetails(job.details)]: the guard is asked only
    about details that are there. *)
Definition has_results (d : JobDetails) : Promise bool :=
  if details_present d
  then let* isError := settle (isErrorDetails d) in resolve (negb isError)
  else resolve false.

(** The function given to [useMutation]. [None] is [undefined]. On a job
    that ended in error the guard is asked about the details whether they
    are there or not. *)
Definition mutationFn (srv : Server) (projectUuid : string) (vars : SqlRunnerBody)
  : Promise (option ResultsAndColumns) :=
  let* scheduledJob := scheduleSqlJob srv projectUuid (sql vars) (limit vars) in
  let* job := getSqlRunnerCompleteJob srv (jobId scheduledJob) in
  if status_is_error (status job) then
    let* isError := settle (isErrorDetails (details job)) in
    (if isError
     then showToastError "Could not run SQL query" (details_error (details job))
     else resolve tt) ;;
    resolve None
  else
    let* hasUrl := has_results (details job) in
    let url := if hasUrl then details_fileUrl (details job) else None in
    let* results := getResultsFromStream srv url in
    let* hasColumns := has_results (details job) in
    resolve
      (Some {| results := results;
               columns := if hasColumns then details_columns (details job) else [] |}).

(** [useState] for [data], [useRef] for [previousDataRef], and the
    [isLoading] flag of the mutation. *)
Record HookState : Type := {
  data : option ResultsAndColumns;
  previousDataRef : option ResultsAndColumns;
  isLoading : bool
}.

Definition initialState : HookState :=
  {| data := None; previousDataRef := None; isLoading := false |}.

Definition onMutate (st : HookState) : HookState :=
  {| data := data st; previousDataRef := data st; isLoading := isLoading st |}.

Definition onError (st : HookState) : list UiEvent * HookState :=
  ([ShowToastError "Could not fetch SQL query results" None], st).

(** The [onSuccess] the caller gives the hook: code of the caller, which
    returns or throws. *)
Definition Callback : Type := option ResultsAndColumns -> ApiError + unit.

(** The hook's own [onSuccess]: [setData(newData)], then the caller's
    callback, whose throw is its own. *)
Definition onSuccess (caller : Callback) (st : HookState)
           (newData : option ResultsAndColumns)
  : list UiEvent * (ApiError + unit) * HookState :=
  ([OnSuccess newData], caller newData,
   {| data := newData; previousDataRef := previousDataRef st; isLoading := isLoading st |}).

Definition set_isLoading (b : bool) (st : HookState) : HookState :=
  {| data := data st; previousDataRef := previousDataRef st; isLoading := b |}.

(** What the hook returns as [data]. *)
Definition currentData (st : HookState) : option ResultsAndColumns :=
  if isLoading st then previousDataRef st else data st.

(** [mutate(vars)], as [useMutation] of [@tanstack/react-query] runs it with
    its default options: [onMutate] is called and the mutation is loading;
    the mutation function is run once (mutations are not retried unless
    [retry] is set, and it is not); when it settles, [onSuccess] is called
    with its value or [onError] with its error, and the mutation is no
    longer loading. An [onSuccess] that throws makes the mutation fail:
    [onError] is called as well. *)
Definition mutate_start (st : HookState) : HookState :=
  set_isLoading true (onMutate st).

Definition mutate_settle (caller : Callback) (st : HookState)
           (r : ApiError + option ResultsAndColumns)
  : list UiEvent * HookState :=
  let (evs, st') :=
    match r with
    | inr newData =>
        match onSuccess caller st newData with
        | (evs, inr _, st') => (evs, st')
        | (evs, inl _, st') => (evs ++ fst (onError st'), snd (onError st'))
        end
    | inl _ => onError st
    end in
  (evs, set_isLoading false st').

Definition mutate (caller : Callback) (srv : Server) (projectUuid : string)
           (st : HookState) (vars : SqlRunnerBody) : list UiEvent * HookState :=
  let run := mutationFn srv projectUuid vars in
  let (evs, st') := mutate_settle caller (mutate_start st) (outcome run) in
  (events run ++ evs, st').

(** A session: one [mutate] after the other has settled, each against the
    server as it answered then. *)
Definition session (caller : Callback) (projectUuid : string)
           (runs : list (Server * SqlRunnerBody)) : HookState :=
  fold_left (fun st run => snd (mutate caller (fst run) projectUuid st (snd run)))
            runs initialState.

(** The value the mutation function resolved to most recently, [undefined]
    before it ever did. *)
Definition latest_result (projectUuid : string) (runs : list (Server * SqlRunnerBody))
  : option ResultsAndColumns :=
  fold_left
    (fun acc run =>
       match outcome (mutationFn (fst run) projectUuid (snd run)) with
       | inr newData => newData
       | inl _ => acc
       end)
    runs None.

End Hook.

Unset Implicit Arguments.

Arguments NoDetails {_}.
Arguments ErrorDetails {_} error.
Arguments LightdashApi {_ _} url method body.
Arguments GetSqlRunnerCompleteJob {_ _} jobId.
Arguments GetResultsFromStream {_ _} url.
Arguments ShowToastError {_ _} title subtitle.
Arguments initialState {_ _}.
Arguments showToastError {_ _} title subtitle.

End SqlQueryRun.

(** ** The create-group modal *)

Module CreateGroupModal.

Import Async.

(** A JavaScript string: its UTF-16 code units. *)
Definition jsstring : Type := list N.

(** The code units [String.prototype.trim] strips (ECMAScript's WhiteSpace
    and LineTerminator): tab, line feed, vertical tab, form feed, carriage
    return, space, no-break space, U+1680, U+2000 to U+200A, U+2028, U+2029,
    U+202F, U+205F, U+3000 and U+FEFF. *)
Definition isWhiteSpace (c : N) : bool :=
  ((9 <=? c) && (c <=? 13) || (c =? 32) || (c =? 160) || (c =? 5760)
   || (8192 <=? c) && (c <=? 8202) || (c =? 8232) || (c =? 8233)
   || (c =? 8239) || (c =? 8287) || (c =? 12288) || (c =? 65279))%N.

Fixpoint trimStart (s : jsstring) : jsstring :=
  match s with
  | [] => []
  | c :: rest => if isWhiteSpace c then trimStart rest else s
  end.

Definition trimEnd (s : jsstring) : jsstring := rev (trimStart (rev s)).

Definition trim (s : jsstring) : jsstring := trimEnd (trimStart s).

Record CreateGroup : Type := {
  name : jsstring
}.

(** [validate.name]: [null] is [None]. The condition is a number, truthy
    unless it is zero. *)
Definition validate_name (value : jsstring) : option string :=
  match length (trim value) with
  | O => Some "Group name is required"
  | S _ => None
  end.

(** The form of [useForm]: the field and its error. *)
Record Form : Type := {
  values : CreateGroup;
  errors : option string
}.

Definition initialValues : CreateGroup := {| name := [] |}.

Definition initialForm : Form := {| values := initialValues; errors := None |}.

Definition form_reset (f : Form) : Form := initialForm.

Record Ability : Type := {
  cannot : string -> string -> bool
}.

Record UserData : Type := {
  ability : option Ability
}.

(** [useApp().user]: [data] is [undefined] until the user has loaded. *)
Record User : Type := {
  data : option UserData
}.

Record ApiError : Type := {
  errorMessage : string
}.

Inductive ModalEvent : Type :=
| MutateAsync (data : CreateGroup)
| OnClose.

Definition is_mutation (e : ModalEvent) : bool :=
  match e with
  | MutateAsync _ => true
  | OnClose => false
  end.

Definition Promise (A : Type) : Type := Async.t ModalEvent ApiError A.

(** [useGroupCreateMutation]: what the server answers to a creation. *)
Definition Mutation : Type := CreateGroup -> ApiError + unit.

Definition mutateAsync (m : Mutation) (data : CreateGroup) : Promise unit :=
  emit (MutateAsync data) ;; settle (m data).

(** [handleSubmit]; the form it leaves behind is the value. *)
Definition handleSubmit (m : Mutation) (f : Form) (data : CreateGroup) : Promise Form :=
  mutateAsync m data ;;
  let f' := form_reset f in
  emit OnClose ;;
  resolve f'.

(** [form.onSubmit(handler)] of [@mantine/form], run on a submit event: the
    values are validated; with an error the form keeps it and the handler is
    not called, without one the handler is called with the values. *)
Definition form_onSubmit (f : Form) (handler : CreateGroup -> Promise Form)
  : Promise Form :=
  match validate_name (name (values f)) with
  | Some message => resolve {| values := values f; errors := Some message |}
  | None => handler (values f)
  end.

(** Submitting the form of the modal. *)
Definition submit (m : Mutation) (f : Form) : Promise Form :=
  form_onSubmit f (fun values => handleSubmit m f values).

Record ModalProps : Type := {
  opened : bool
}.

(** The element the component returns, by the props that vary. *)
Record ModalElement : Type := {
  modalOpened : bool;
  modalTitle : string;
  inputLabel : string;
  inputDisabled : bool;
  inputValue : jsstring;
  inputError : option string;
  buttonDisabled : bool;
  buttonLabel : string
}.

(** [user.data?.ability?.cannot('manage', 'Group')]: [None] is [undefined]. *)
Definition cannot_manage_group (user : User) : option bool :=
  match data user with
  | None => None
  | Some d =>
      match ability d with
      | None => None
      | Some a => Some (cannot a "manage" "Group")
      end
  end.

(** The truthiness of a [boolean | undefined]. *)
Definition truthy (v : option bool) : bool :=
  match v with
  | Some b => b
  | None => false
  end.

(** The component; [null] is [None]. *)
Definition CreateGroupModal (props : ModalProps) (f : Form) (user : User)
           (isLoading : bool) : option ModalElement :=
  if truthy (cannot_manage_group user) then None
  else
    Some {| modalOpened := opened props;
            modalTitle := "Create group";
            inputLabel := "Group name";
            inputDisabled := isLoading;
            inputValue := name (values f);
            inputError := errors f;
            buttonDisabled := isLoading;
            buttonLabel := "Create group" |}.

End CreateGroupModal.

(** ** The run-query button *)

Module RunSemanticQueryButton.

(** The truthiness of a [number | undefined]: zero is falsy. *)
Definition truthy (v : option N) : bool :=
  match v with
  | Some n => negb (n =? 0)%N
  | None => false
  end.

(** [l.includes(x)] on strings. *)
Definition includes (l : list string) (x : string) : bool :=
  existsb (String.eqb x) l.

Set Implicit Arguments.

Section Component.
(** The types of the store and of the chart code, which the component
    passes on; of a column it reads the reference. *)
Variables ResultRow Column SemanticQuery ChartKind VizConfig ChartOptions Runner : Type.
Variable reference : Column -> string.

(** [new SemanticViewerResultsRunner({ query, rows, columns, projectUuid })]
    and [getChartConfigAndOptions], which are not among the source files. *)
Variable newRunner : SemanticQuery -> list ResultRow -> list Column -> string -> Runner.
Variable getChartConfigAndOptions : Runner -> ChartKind -> VizConfig -> ChartOptions.

(** [`${limit}`]: the string JavaScript makes of a number, a built-in of the
    language that is taken as it is. *)
Variable numberToString : N -> string.

(** What the selectors give the component. *)
Record Store : Type := {
  projectUuid : string;
  maxQueryLimit : N;
  semanticQuery : SemanticQuery;
  allSelectedFields : list string;
  columns : list Column;
  limit : option N;
  activeChartKind : ChartKind;
  currentVizConfig : VizConfig
}.

Inductive Action : Type :=
| SetResults (results : list ResultRow) (columns : list Column)
| OnResults (options : ChartOptions)
| SetLimit (newLimit : N).

(** [columns.filter((c) => allSelectedFields.includes(c.reference))]. *)
Definition usedColumns (st : Store) : list Column :=
  filter (fun c => includes (allSelectedFields st) (reference c)) (columns st).

(** The effect on [resultsData]: the actions it dispatches, in order. An
    array, even an empty one, is truthy; [None] is [undefined]. *)
Definition resultsEffect (st : Store) (resultsData : option (list ResultRow))
  : list Action :=
  match resultsData with
  | None => []
  | Some rows =>
      let used := usedColumns st in
      let resultsRunner := newRunner (semanticQuery st) rows used (projectUuid st) in
      let chartResultOptions :=
        getChartConfigAndOptions resultsRunner (activeChartKind st) (currentVizConfig st) in
      [SetResults rows used; OnResults chartResultOptions]
  end.

Definition handleLimitChange (newLimit : N) : list Action := [SetLimit newLimit].

Record RunButton : Type := {
  label : string;
  paddingRight : option string;
  loading : bool;
  disabled : bool
}.

Record LimitButton : Type := {
  limitDisabled : bool;
  maxLimit : N;
  shownLimit : N
}.

Record Rendered : Type := {
  tooltipKey : string;
  tooltipDisabled : bool;
  runButton : RunButton;
  limitButton : option LimitButton
}.

(** The element the component returns, by the props that vary.
    [handleLimitChange] is the function [useCallback] returns, never
    [undefined], so the limit button is always there. *)
Definition render (os : string) (st : Store) (isLoading : bool) : Rendered :=
  {| tooltipKey := if (os =? "macos") || (os =? "ios") then "⌘" else "ctrl";
     tooltipDisabled := isLoading;
     runButton :=
       {| label :=
            ("Run query "
               ++ (if truthy (limit st)
                   then "(" ++ match limit st with
                               | Some n => numberToString n
                               | None => "undefined"
                               end ++ ")"
                   else ""))%string;
          paddingRight := if truthy (limit st) then Some "xs" else None;
          loading := isLoading;
          disabled := Nat.eqb (length (allSelectedFields st)) 0 |};
     limitButton :=
       Some {| limitDisabled := Nat.eqb (length (allSelectedFields st)) 0;
               maxLimit := maxQueryLimit st;
               shownLimit := match limit st with
                             | Some n => n
                             | None => maxQueryLimit st
                             end |} |}.

End Component.

Unset Implicit Arguments.

Arguments SetResults {_ _ _} results columns.
Arguments OnResults {_ _ _} options.
Arguments SetLimit {_ _ _} newLimit.

End RunSemanticQueryButton.

(** ** Sample inputs *)

Module Sample.

Import SemanticLayerService.

Definition both_configured : LightdashConfig :=
  {| dbtCloud := {| bearerToken := Some "dbt-token"; environmentId := Some "7001" |};
     cube := {| token := Some "cube-token"; domain := Some "cube.example.com" |};
     siteUrl := "https://lightdash.example.com" |}.

Definition cube_only : LightdashConfig :=
  {| dbtCloud := {| bearerToken := Some "dbt-token"; environmentId := None |};
     cube := {| token := Some "cube-token"; domain := Some "cube.example.com" |};
     siteUrl := "https://lightdash.example.com" |}.

Definition nothing_configured : LightdashConfig :=
  {| dbtCloud := {| bearerToken := None; environmentId := Some "" |};
     cube := {| token := Some "cube-token"; domain := None |};
     siteUrl := "https://lightdash.example.com" |}.

(** A client over queries, views and fields that are strings, selected
    fields that are lists of strings, and rows that are numbers. *)
Definition client (engine : string)
  : SemanticLayerClient string string string (list string) nat :=
  {| client_getViews := inr [engine ++ "_orders"; engine ++ "_customers"]%string;
     client_getFields := fun view selectedFields => inr (view :: selectedFields);
     client_getSql := fun query => inr ("SELECT " ++ query ++ " FROM " ++ engine)%string;
     client_streamResults := fun _ _ => ([[10; 20]; [30]], inr tt) |}.

Definition service (config : LightdashConfig)
  : Service string string string (list string) nat :=
  {| lightdashConfig := config;
     projectModel := fun _ => inr {| organizationUuid := "org-1" |};
     schedulerClient := fun _ => inr "job-1";
     cubeClient := client "cube";
     dbtCloudClient := client "dbt";
     downloadFileModel := fun url => inr (url ++ "/file-1")%string |}.

Definition viewer : SessionUser :=
  {| userUuid := "user-1"; ability := {| cannot := fun _ _ => false |} |}.

Definition outsider : SessionUser :=
  {| userUuid := "user-2"; ability := {| cannot := fun _ _ => true |} |}.

Definition outsider_payload : SemanticLayerQueryPayload string :=
  {| payloadUserUuid := userUuid outsider;
     payloadProjectUuid := "project-1";
     payloadQuery := "revenue";
     payloadContext := "semanticViewer" |}.

End Sample.

Module SampleRun.

Import SqlQueryRun.

Definition vars : SqlRunnerBody := {| sql := "select 1"; limit := Some 500 |}.

(** A server whose job ends as given; rows are numbers, columns strings. *)
Definition server (job : Job string) : Server nat string :=
  {| lightdashApi_response := fun _ _ _ => inr {| jobId := "job-1" |};
     completeJob_response := fun _ => inr job;
     stream_response :=
       fun url =>
         match url with
         | Some _ => inr [1; 2; 3]
         | None => inl {| errorName := "Error"; errorMessage := "No URL" |}
         end |}.

Definition completed_job : Job string :=
  {| status := COMPLETED; details := FileDetails "https://files/1" ["a"; "b"] |}.

Definition failed_job : Job string :=
  {| status := ERROR; details := ErrorDetails "syntax error" |}.


(** A job that ended in error and has no details at all. *)
Definition bare_failed_job : Job string :=
  {| status := ERROR; details := NoDetails |}.

(** A job reported complete without details: the stream has no URL. *)
Definition empty_job : Job string :=
  {| status := COMPLETED; details := NoDetails |}.

End SampleRun.

Module SampleModal.

Import CreateGroupModal.

(** A tab, a no-break space and a space. *)
Definition blank_name : jsstring := [9; 160; 32]%N.

(** " qa ": the letters q and a between spaces. *)
Definition padded_name : jsstring := [32; 113; 97; 32]%N.

Definition form_with (value : jsstring) : Form :=
  {| values := {| name := value |}; errors := None |}.

Definition accepting : Mutation := fun _ => inr tt.

Definition member : User :=
  {| data := Some {| ability := Some {| cannot := fun _ _ => true |} |} |}.

Definition admin : User :=
  {| data := Some {| ability := Some {| cannot := fun _ _ => false |} |} |}.

Definition loading_user : User := {| data := None |}.

End SampleModal.

Module SampleOperations.

Import SqlQueryRun.

(** A server that cannot be reached. *)
Definition offline_server : Server nat string :=
  {| lightdashApi_response :=
       fun _ _ _ => inl {| errorName := "NetworkError"; errorMessage := "offline" |};
     completeJob_response :=
       fun _ => inl {| errorName := "NetworkError"; errorMessage := "offline" |};
     stream_response :=
       fun _ => inl {| errorName := "NetworkError"; errorMessage := "offline" |} |}.

(** A caller whose [onSuccess] returns, and one whose [onSuccess] throws. *)
Definition accepting_caller : Callback nat string := fun _ => inr tt.

Definition throwing_caller : Callback nat string :=
  fun _ => inl {| errorName := "Error"; errorMessage := "cannot render" |}.

(** A Cube client whose stream hands over one batch and then throws. *)
Definition interrupted_client
  : SemanticLayerService.SemanticLayerClient string string string (list string) nat :=
  {| SemanticLayerService.client_getViews := inr [];
     SemanticLayerService.client_getFields := fun _ _ => inr [];
     SemanticLayerService.client_getSql := fun query => inr query;
     SemanticLayerService.client_streamResults :=
       fun _ _ =>
         ([[10; 20]], inl (SemanticLayerService.UpstreamError "connection reset")) |}.

Definition interrupted_service
  : SemanticLayerService.Service string string string (list string) nat :=
  {| SemanticLayerService.lightdashConfig := Sample.cube_only;
     SemanticLayerService.projectModel :=
       fun _ => inr {| SemanticLayerService.organizationUuid := "org-1" |};
     SemanticLayerService.schedulerClient := fun _ => inr "job-1";
     SemanticLayerService.cubeClient := interrupted_client;
     SemanticLayerService.dbtCloudClient := Sample.client "dbt";
     SemanticLayerService.downloadFileModel := fun url => inr (url ++ "/file-1")%string |}.

(** A store of the semantic viewer: columns are their references, the other
    types of the chart code are left trivial. *)
Definition store (selected : list string) (limit : option N)
  : RunSemanticQueryButton.Store string unit unit unit :=
  {| RunSemanticQueryButton.projectUuid := "project-1";
     RunSemanticQueryButton.maxQueryLimit := 5000;
     RunSemanticQueryButton.semanticQuery := tt;
     RunSemanticQueryButton.allSelectedFields := selected;
     RunSemanticQueryButton.columns := ["orders.id"; "orders.total"; "customers.name"];
     RunSemanticQueryButton.limit := limit;
     RunSemanticQueryButton.activeChartKind := tt;
     RunSemanticQueryButton.currentVizConfig := tt |}.

End SampleOperations.

(** * Properties of the semantic-layer service *)

Section AsyncFacts.
Import Async.
Context {Ev Err : Type}.

Lemma events_bind {A B} (m : Async.t Ev Err A) (k : A -> Async.t Ev Err B) a :
  outcome m = inr a ->
  events (Async.bind m k) = events m ++ events (k a).
Proof.
  destruct m as [tr [e | x]]; unfold outcome, events; simpl; intros H.
  - discriminate.
  - now inversion H.
Qed.

Lemma outcome_bind {A B} (m : Async.t Ev Err A) (k : A -> Async.t Ev Err B) a :
  outcome m = inr a ->
  outcome (Async.bind m k) = outcome (k a).
Proof.
  destruct m as [tr [e | x]]; unfold outcome; simpl; intros H.
  - discriminate.
  - now inversion H.
Qed.

Lemma bind_rejected {A B} (m : Async.t Ev Err A) (k : A -> Async.t Ev Err B) e :
  thrown m = Some e ->
  events (Async.bind m k) = events m /\ thrown (Async.bind m k) = Some e.
Proof.
  destruct m as [tr [e' | x]]; unfold thrown, events; simpl; intros H.
  - now inversion H.
  - discriminate.
Qed.

(** A kind of call made by no part of a sequence is not made by the sequence. *)
Lemma existsb_events_bind {A B} (f : Ev -> bool)
      (m : Async.t Ev Err A) (k : A -> Async.t Ev Err B) :
  existsb f (events m) = false ->
  (forall a, outcome m = inr a -> existsb f (events (k a)) = false) ->
  existsb f (events (Async.bind m k)) = false.
Proof.
  destruct m as [tr [e | a]]; unfold events, outcome; simpl; intros Hm Hk; auto.
  rewrite existsb_app, Hm. now apply Hk.
Qed.
End AsyncFacts.

Section ClientSelection.
Import Async SemanticLayerService.
Variables SemanticLayerQuery SemanticLayerView SemanticLayerField
          SemanticLayerSelectedFields ResultRow : Type.

Let Service : Type :=
  SemanticLayerService.Service SemanticLayerQuery SemanticLayerView SemanticLayerField
                               SemanticLayerSelectedFields ResultRow.

Lemma truthy_is_set (v : option string) : truthy v = true <-> is_set v.
Proof.
  unfold is_set; destruct v as [s |]; simpl.
  - rewrite negb_true_iff, String.eqb_neq. split.
    + intros H; exists s; auto.
    + intros [s' [E H]]; congruence.
  - split; [discriminate | intros [s [E _]]; discriminate].
Qed.

Lemma dbtCloud_configured_reflect (c : LightdashConfig) :
  truthy (bearerToken (dbtCloud c)) && truthy (environmentId (dbtCloud c)) = true
  <-> dbtCloud_configured c.
Proof.
  unfold dbtCloud_configured. now rewrite andb_true_iff, !truthy_is_set.
Qed.

Lemma cube_configured_reflect (c : LightdashConfig) :
  truthy (token (cube c)) && truthy (domain (cube c)) = true
  <-> cube_configured c.
Proof.
  unfold cube_configured. now rewrite andb_true_iff, !truthy_is_set.
Qed.

(** The three ways a selection ends, by the configuration alone. *)
Lemma getSemanticLayerClient_cases (this : Service) (projectUuid : string) :
  (dbtCloud_configured (lightdashConfig this)
   /\ getSemanticLayerClient this projectUuid = resolve DbtCloudClient)
  \/ (~ dbtCloud_configured (lightdashConfig this)
      /\ cube_configured (lightdashConfig this)
      /\ getSemanticLayerClient this projectUuid = resolve CubeClient)
  \/ (~ dbtCloud_configured (lightdashConfig this)
      /\ ~ cube_configured (lightdashConfig this)
      /\ getSemanticLayerClient this projectUuid
         = reject (MissingConfigError "No semantic layer available")).
Proof.
  unfold getSemanticLayerClient.
  destruct (truthy (bearerToken _) && truthy (environmentId _)) eqn:Hd.
  - left. split; [now apply dbtCloud_configured_reflect | reflexivity].
  - assert (Hnd : ~ dbtCloud_configured (lightdashConfig this)).
    { intros H. apply dbtCloud_configured_reflect in H. congruence. }
    destruct (truthy (token _) && truthy (domain _)) eqn:Hc.
    + right; left.
      split; [exact Hnd | split; [now apply cube_configured_reflect | reflexivity]].
    + right; right.
      split; [exact Hnd | split; [ | reflexivity]].
      intros H. apply cube_configured_reflect in H. congruence.
Qed.

(** C2. Whenever both the dbt Cloud bearer token and the environment id are
    set, [getSemanticLayerClient] selects the dbt Cloud client, whatever the
    Cube configuration is (so also when both pairs are complete); it selects
    the Cube client exactly when the dbt Cloud pair is incomplete and both
    the Cube token and the Cube domain are set. *)
Theorem getSemanticLayerClient_precedence (this : Service) (projectUuid : string) :
  (dbtCloud_configured (lightdashConfig this) ->
   getSemanticLayerClient this projectUuid = resolve DbtCloudClient)
  /\ (dbtCloud_configured (lightdashConfig this) ->
      cube_configured (lightdashConfig this) ->
      getSemanticLayerClient this projectUuid = resolve DbtCloudClient)
  /\ (getSemanticLayerClient this projectUuid = resolve CubeClient
      <-> ~ dbtCloud_configured (lightdashConfig this)
          /\ cube_configured (lightdashConfig this)).
Proof.
  destruct (getSemanticLayerClient_cases this projectUuid)
    as [[Hd E] | [[Hd [Hc E]] | [Hd [Hc E]]]]; rewrite E;
    (split; [ | split; [ | split]]); try tauto; try discriminate; auto.
Qed.

(** C3. [getSemanticLayerClient] throws a [MissingConfigError] if and only
    if neither the dbt Cloud pair nor the Cube pair is complete; it throws
    nothing else, and when either pair is complete it returns a client. *)
Theorem getSemanticLayerClient_missing_config_iff (this : Service) (projectUuid : string) :
  ((exists message,
       thrown (getSemanticLayerClient this projectUuid) = Some (MissingConfigError message))
   <-> ~ dbtCloud_configured (lightdashConfig this)
       /\ ~ cube_configured (lightdashConfig this))
  /\ (forall e, thrown (getSemanticLayerClient this projectUuid) = Some e ->
                e = MissingConfigError "No semantic layer available")
  /\ (dbtCloud_configured (lightdashConfig this) \/ cube_configured (lightdashConfig this) ->
      exists client, getSemanticLayerClient this projectUuid = resolve client).
Proof.
  destruct (getSemanticLayerClient_cases this projectUuid)
    as [[Hd E] | [[Hd [Hc E]] | [Hd [Hc E]]]]; rewrite E; unfold thrown; simpl;
    (split; [split | split]).
  - intros [m H]; discriminate.
  - tauto.
  - discriminate.
  - intros _. now exists DbtCloudClient.
  - intros [m H]; discriminate.
  - tauto.
  - discriminate.
  - intros _. now exists CubeClient.
  - auto.
  - intros _. now exists "No semantic layer available".
  - intros e H. now inversion H.
  - tauto.
Qed.

(** C8. The selection does not depend on the project: under one
    configuration, any two project uuids get the same client or the same
    [MissingConfigError]. *)
Theorem getSemanticLayerClient_ignores_project (this : Service) (uuid1 uuid2 : string) :
  getSemanticLayerClient this uuid1 = getSemanticLayerClient this uuid2.
Proof.
  unfold getSemanticLayerClient.
  destruct (truthy (bearerToken _) && truthy (environmentId _)); [reflexivity |].
  destruct (truthy (token _) && truthy (domain _)); reflexivity.
Qed.

End ClientSelection.

Section AuthorizationGate.
Import Async SemanticLayerService.
Variables SemanticLayerQuery SemanticLayerView SemanticLayerField
          SemanticLayerSelectedFields ResultRow : Type.

Let Service : Type :=
  SemanticLayerService.Service SemanticLayerQuery SemanticLayerView SemanticLayerField
                               SemanticLayerSelectedFields ResultRow.
Let Event : Type :=
  SemanticLayerService.Event SemanticLayerQuery SemanticLayerSelectedFields ResultRow.

Variable this : Service.
Variable user : SessionUser.
Variable projectUuid : string.

(** The check makes one call, the project lookup, however it ends. *)
Lemma checkCanViewProject_events :
  events (checkCanViewProject this user projectUuid) = [ProjectModelGet projectUuid].
Proof.
  unfold checkCanViewProject, projectModel_get, events, settle, emit; simpl.
  destruct (projectModel this projectUuid) as [e | project]; simpl; [reflexivity |].
  now destruct (cannot _ _ _).
Qed.

Lemma checkCanViewProject_forbidden (project : Project) :
  projectModel this projectUuid = inr project ->
  cannot (ability user) "view"
         {| subjectType := "Project";
            subjectOrganizationUuid := organizationUuid project;
            subjectProjectUuid := projectUuid |} = true ->
  thrown (checkCanViewProject this user projectUuid) = Some ForbiddenError.
Proof.
  intros Hp Hc.
  unfold checkCanViewProject, projectModel_get, thrown, settle, emit; simpl.
  rewrite Hp; simpl. now rewrite Hc.
Qed.

(** An operation that awaits the check first stops where the check stops. *)
Lemma gated_rejected {A} (k : Project -> Promise SemanticLayerQuery
                                             SemanticLayerSelectedFields ResultRow A) e :
  thrown (checkCanViewProject this user projectUuid) = Some e ->
  events (Async.bind (checkCanViewProject this user projectUuid) k)
  = [ProjectModelGet projectUuid]
  /\ thrown (Async.bind (checkCanViewProject this user projectUuid) k) = Some e.
Proof.
  intros H. destruct (bind_rejected _ k _ H) as [Hev Hth].
  now rewrite Hev, checkCanViewProject_events.
Qed.

Lemma gated_first_call {A} (k : Project -> Promise SemanticLayerQuery
                                               SemanticLayerSelectedFields ResultRow A) :
  exists rest : list Event,
    events (Async.bind (checkCanViewProject this user projectUuid) k)
    = ProjectModelGet projectUuid :: rest.
Proof.
  destruct (outcome (checkCanViewProject this user projectUuid)) as [e | project] eqn:Ho.
  - exists []. apply gated_rejected with (e := e). unfold thrown, outcome in *. now rewrite Ho.
  - exists (events (k project)).
    now rewrite (events_bind _ k _ Ho), checkCanViewProject_events.
Qed.

(** C4. When the permission check on the project fails for the user,
    [getViews], [getFields], [getSql] and [getStreamingResults] throw what the
    check threw, and their only call is the project lookup of the check: no
    method of a semantic-layer client is invoked and no job is handed to the
    scheduler. *)
Theorem forbidden_user_reaches_no_client
        (e : LightdashError) (view : string)
        (selectedFields : SemanticLayerSelectedFields) (query : SemanticLayerQuery) :
  thrown (checkCanViewProject this user projectUuid) = Some e ->
  (thrown (getViews this user projectUuid) = Some e
   /\ no_client_or_scheduler_call (events (getViews this user projectUuid)) = true)
  /\ (thrown (getFields this user projectUuid view selectedFields) = Some e
      /\ no_client_or_scheduler_call
           (events (getFields this user projectUuid view selectedFields)) = true)
  /\ (thrown (getSql this user projectUuid query) = Some e
      /\ no_client_or_scheduler_call (events (getSql this user projectUuid query)) = true)
  /\ (thrown (getStreamingResults this user projectUuid query) = Some e
      /\ no_client_or_scheduler_call
           (events (getStreamingResults this user projectUuid query)) = true).
Proof.
  intros H.
  unfold getViews, getFields, getSql, getStreamingResults.
  repeat match goal with
         | |- context [Async.bind (checkCanViewProject this user projectUuid) ?k] =>
             let Hev := fresh "Hev" in
             let Hth := fresh "Hth" in
             destruct (gated_rejected k e H) as [Hev Hth];
             rewrite Hev, Hth; clear Hev Hth
         end.
  repeat split; reflexivity.
Qed.

(** C5. When the caller may view the project and a client is configured,
    [getSql] answers with what the selected client's [getSql] answers to the
    same query, and [getFields] with what the selected client's [getFields]
    answers to the same view and selected fields; each makes that one client
    call, with the arguments it was given. *)
Theorem getSql_getFields_forward_verbatim
        (client : SelectedClient) (view : string)
        (selectedFields : SemanticLayerSelectedFields) (query : SemanticLayerQuery) :
  may_view this user projectUuid ->
  getSemanticLayerClient this projectUuid = resolve client ->
  (outcome (getSql this user projectUuid query)
   = client_getSql (clientImpl this client) query
   /\ events (getSql this user projectUuid query)
      = [ProjectModelGet projectUuid; ClientGetSql client query])
  /\ (outcome (getFields this user projectUuid view selectedFields)
      = client_getFields (clientImpl this client) view selectedFields
      /\ events (getFields this user projectUuid view selectedFields)
         = [ProjectModelGet projectUuid; ClientGetFields client view selectedFields]).
Proof.
  intros [project Hview] Hclient.
  pose proof checkCanViewProject_events as Hev.
  unfold getSql, getFields. rewrite Hclient.
  destruct (checkCanViewProject this user projectUuid) as [tr [e | p]];
    unfold outcome, events in *; simpl in *; [discriminate |].
  subst tr. unfold getSql_of, getFields_of, settle, emit; simpl.
  destruct (client_getSql _ _), (client_getFields _ _ _); repeat split; reflexivity.
Qed.

End AuthorizationGate.

Section StreamIntoFile.
Import Async SemanticLayerService.
Variables SemanticLayerQuery SemanticLayerView SemanticLayerField
          SemanticLayerSelectedFields ResultRow : Type.

Let Service : Type :=
  SemanticLayerService.Service SemanticLayerQuery SemanticLayerView SemanticLayerField
                               SemanticLayerSelectedFields ResultRow.
Let Event : Type :=
  SemanticLayerService.Event SemanticLayerQuery SemanticLayerSelectedFields ResultRow.
Let writer (row : ResultRow)
  : Promise SemanticLayerQuery SemanticLayerSelectedFields ResultRow unit :=
  emit (FileWrite row).

Lemma forEach_writer (rows : list ResultRow) :
  forEach rows writer = (map FileWrite rows, inr tt).
Proof.
  induction rows as [| r rows IH]; simpl; [reflexivity |].
  now rewrite IH.
Qed.

Lemma forEach_batches (batches : list (list ResultRow)) :
  forEach batches (fun rows => forEach rows writer)
  = (map FileWrite (concat batches), inr tt).
Proof.
  induction batches as [| b batches IH]; simpl; [reflexivity |].
  rewrite IH, forEach_writer; simpl. now rewrite map_app.
Qed.

Lemma no_lookup_in_writes (rows : list ResultRow) :
  existsb (@is_project_lookup SemanticLayerQuery SemanticLayerSelectedFields ResultRow)
          (map FileWrite rows) = false.
Proof.
  induction rows as [| r rows IH]; simpl; auto.
Qed.

(** Streaming through a selected client into a file: the calls made. *)
Lemma streamFunction_no_lookup
      (this : Service) (c : SelectedClient) (url projectUuid : string)
      (query : SemanticLayerQuery) :
  existsb (@is_project_lookup _ _ _)
          (events (streamFunction this url
                     (fun w => streamResults_of this c projectUuid query
                                 (fun rows => forEach rows w)))) = false.
Proof.
  unfold streamFunction, streamResults_of, settle, emit, events; simpl.
  destruct (client_streamResults (clientImpl this c) projectUuid query)
    as [batches ending]; simpl.
  fold writer. rewrite forEach_batches; simpl.
  destruct ending as [e | []]; simpl.
  - rewrite app_nil_r. apply no_lookup_in_writes.
  - destruct (downloadFileModel this url); simpl;
      rewrite !existsb_app, no_lookup_in_writes; reflexivity.
Qed.

(** [streamQueryIntoFile] never looks the project up. *)
Lemma streamQueryIntoFile_no_lookup
      (this : Service) (payload : SemanticLayerQueryPayload SemanticLayerQuery) :
  existsb (@is_project_lookup _ _ _) (events (streamQueryIntoFile this payload)) = false.
Proof.
  unfold streamQueryIntoFile.
  apply existsb_events_bind; [reflexivity | intros _ _].
  apply existsb_events_bind.
  - destruct (getSemanticLayerClient_cases _ _ _ _ _ this (payloadProjectUuid payload))
      as [[_ E] | [[_ [_ E]] | [_ [_ E]]]]; rewrite E; reflexivity.
  - intros c _. apply existsb_events_bind; [ | reflexivity].
    apply streamFunction_no_lookup.
Qed.

(** C1, as the code has it. [getViews], [getFields], [getStreamingResults]
    and [getSql], the entry points that take a session user, resolve the
    project before anything else, and when the user's ability denies viewing
    it they throw [ForbiddenError] having made no other call.
    [streamQueryIntoFile], which takes the scheduler's payload and no session
    user, makes no project lookup and no permission check. *)
Theorem entry_points_with_a_user_check_permission_first
        (this : Service) (user : SessionUser) (projectUuid view : string)
        (selectedFields : SemanticLayerSelectedFields) (query : SemanticLayerQuery) :
  checks_permission_first this user projectUuid (getViews this user projectUuid)
  /\ checks_permission_first this user projectUuid
       (getFields this user projectUuid view selectedFields)
  /\ checks_permission_first this user projectUuid
       (getStreamingResults this user projectUuid query)
  /\ checks_permission_first this user projectUuid (getSql this user projectUuid query)
  /\ (forall payload : SemanticLayerQueryPayload SemanticLayerQuery,
         existsb (@is_project_lookup _ _ _) (events (streamQueryIntoFile this payload))
         = false).
Proof.
  assert (gate : forall A (k : Project -> Promise _ _ _ A),
             checks_permission_first this user projectUuid
               (Async.bind (checkCanViewProject this user projectUuid) k)).
  { intros A k. split.
    - apply gated_first_call.
    - intros [project [Hp Hc]].
      pose proof (checkCanViewProject_forbidden _ _ _ _ _ this user projectUuid
                    project Hp Hc) as Hth.
      destruct (gated_rejected _ _ _ _ _ this user projectUuid k _ Hth). auto. }
  unfold getViews, getFields, getStreamingResults, getSql.
  split; [apply gate | split; [apply gate | split; [apply gate | split; [apply gate |]]]].
  intros payload. apply streamQueryIntoFile_no_lookup.
Qed.

End StreamIntoFile.

(** ** The service on the sample inputs *)

Section ServiceExamples.
Import Async SemanticLayerService Sample.

Example both_configured_is_configured :
  dbtCloud_configured both_configured /\ cube_configured both_configured.
Proof.
  repeat split; eexists; (split; [reflexivity | discriminate]).
Qed.

(** An empty environment id is not set, and neither is a missing one. *)
Example nothing_configured_is_not_configured :
  ~ dbtCloud_configured nothing_configured /\ ~ cube_configured nothing_configured.
Proof.
  split; intros [_ [s [E N]]]; inversion E; subst; now apply N.
Qed.

Lemma getSemanticLayerClient_precedence_witness :
  getSemanticLayerClient (service both_configured) "project-1" = resolve DbtCloudClient.
Proof.
  destruct both_configured_is_configured as [Hd Hc].
  exact (proj1 (proj2 (getSemanticLayerClient_precedence
                         _ _ _ _ _ (service both_configured) "project-1")) Hd Hc).
Defined.

Lemma getSemanticLayerClient_missing_config_iff_witness :
  exists message,
    thrown (getSemanticLayerClient (service nothing_configured) "project-1")
    = Some (MissingConfigError message).
Proof.
  exact (proj2 (proj1 (getSemanticLayerClient_missing_config_iff
                         _ _ _ _ _ (service nothing_configured) "project-1"))
               nothing_configured_is_not_configured).
Defined.

Example cube_only_selects_cube :
  getSemanticLayerClient (service cube_only) "project-1" = resolve CubeClient.
Proof. reflexivity. Qed.

Lemma forbidden_user_reaches_no_client_witness :
  thrown (checkCanViewProject (service both_configured) outsider "project-1")
  = Some ForbiddenError
  /\ thrown (getStreamingResults (service both_configured) outsider "project-1" "revenue")
     = Some ForbiddenError
  /\ no_client_or_scheduler_call
       (events (getStreamingResults (service both_configured) outsider "project-1"
                                    "revenue")) = true.
Proof.
  split; [reflexivity |].
  apply (forbidden_user_reaches_no_client
           _ _ _ _ _ (service both_configured) outsider "project-1"
           ForbiddenError "orders" ["orders.id"] "revenue").
  reflexivity.
Defined.

Lemma getSql_getFields_forward_verbatim_witness :
  may_view (service both_configured) viewer "project-1"
  /\ outcome (getSql (service both_configured) viewer "project-1" "revenue")
     = inr "SELECT revenue FROM dbt"
  /\ outcome (getFields (service both_configured) viewer "project-1" "orders"
                        ["orders.id"])
     = inr ["orders"; "orders.id"].
Proof.
  assert (Hview : may_view (service both_configured) viewer "project-1").
  { eexists; reflexivity. }
  split; [exact Hview |].
  destruct (getSql_getFields_forward_verbatim
              _ _ _ _ _ (service both_configured) viewer "project-1"
              DbtCloudClient "orders" ["orders.id"] "revenue" Hview eq_refl)
    as [[Hsql _] [Hfields _]].
  split; [exact Hsql | exact Hfields].
Defined.

Lemma entry_points_with_a_user_check_permission_first_witness :
  permission_denied (service both_configured) outsider "project-1"
  /\ thrown (getViews (service both_configured) outsider "project-1")
     = Some ForbiddenError
  /\ events (getViews (service both_configured) outsider "project-1")
     = [ProjectModelGet "project-1"].
Proof.
  assert (Hdenied : permission_denied (service both_configured) outsider "project-1").
  { eexists; split; reflexivity. }
  split; [exact Hdenied |].
  exact (proj2 (proj1 (entry_points_with_a_user_check_permission_first
                         _ _ _ _ _ (service both_configured) outsider "project-1"
                         "orders" ["orders.id"] "revenue"))
               Hdenied).
Defined.

(** C1, as the claim states it, fails at [streamQueryIntoFile]: run for a
    user whose permission check throws [ForbiddenError], it looks no project
    up, calls the dbt Cloud client, writes the rows and resolves to the URL
    of the file. *)
Lemma streamQueryIntoFile_runs_for_a_forbidden_user :
  payloadUserUuid outsider_payload = userUuid outsider
  /\ thrown (checkCanViewProject (service both_configured) outsider
                                 (payloadProjectUuid outsider_payload))
     = Some ForbiddenError
  /\ streamQueryIntoFile (service both_configured) outsider_payload
     = ([LoggerDebug "Streaming query into file for project project-1";
         ClientStreamResults DbtCloudClient "project-1" "revenue";
         FileWrite 10; FileWrite 20; FileWrite 30;
         FileUpload
           "https://lightdash.example.com/api/v2/projects/project-1/semantic-layer/results"],
        inr
          "https://lightdash.example.com/api/v2/projects/project-1/semantic-layer/results/file-1").
Proof.
  repeat split.
Qed.

End ServiceExamples.

(** * Properties of the SQL-runner hook *)

Section SqlQueryRunProperties.
Import Async SqlQueryRun.
Variables ResultRow SqlColumn : Type.

Let Server : Type := SqlQueryRun.Server ResultRow SqlColumn.
Let HookState : Type := SqlQueryRun.HookState ResultRow SqlColumn.
Let Job : Type := SqlQueryRun.Job SqlColumn.
Let Callback : Type := SqlQueryRun.Callback ResultRow SqlColumn.

Variable projectUuid : string.

Let url : string := ("/projects/" ++ projectUuid ++ "/sqlRunner/run")%string.

Lemma vars_eta (vars : SqlRunnerBody) : {| sql := sql vars; limit := limit vars |} = vars.
Proof. now destruct vars. Qed.

(** The guard answers exactly about the details that are there. *)
Lemma isErrorDetails_answers (d : JobDetails SqlColumn) :
  (exists isError, isErrorDetails d = inr isError) <-> d <> NoDetails.
Proof.
  destruct d; simpl; split.
  - intros [b H]; discriminate.
  - intros H; now elim H.
  - discriminate.
  - intros _; now exists true.
  - discriminate.
  - intros _; now exists false.
Qed.

(** The run of the mutation function on a job that ended in error, when the
    guard answers about its details. *)
Lemma mutationFn_error_job (srv : Server) (vars : SqlRunnerBody) (job : Job)
      (scheduledJob : ApiJobScheduled) (isError : bool) :
  lightdashApi_response srv url "POST" vars = inr scheduledJob ->
  completeJob_response srv (jobId scheduledJob) = inr job ->
  status job = ERROR ->
  isErrorDetails (details job) = inr isError ->
  mutationFn srv projectUuid vars
  = ([LightdashApi url "POST" vars; GetSqlRunnerCompleteJob (jobId scheduledJob)]
       ++ (if isError
           then [ShowToastError "Could not run SQL query" (details_error (details job))]
           else []),
     inr None).
Proof.
  intros Hs Hj He Hg.
  unfold mutationFn, scheduleSqlJob, lightdashApi, getSqlRunnerCompleteJob,
    settle, emit.
  rewrite vars_eta. fold url. simpl. rewrite Hs; simpl. rewrite Hj; simpl.
  rewrite He; simpl. rewrite Hg; simpl. now destruct isError.
Qed.

(** The same run when the details are not there: the guard throws, and so
    does the mutation function. *)
Lemma mutationFn_error_job_without_details
      (srv : Server) (vars : SqlRunnerBody) (job : Job)
      (scheduledJob : ApiJobScheduled) :
  lightdashApi_response srv url "POST" vars = inr scheduledJob ->
  completeJob_response srv (jobId scheduledJob) = inr job ->
  status job = ERROR ->
  details job = NoDetails ->
  mutationFn srv projectUuid vars
  = ([LightdashApi url "POST" vars; GetSqlRunnerCompleteJob (jobId scheduledJob)],
     inl typeError).
Proof.
  intros Hs Hj He Hd.
  unfold mutationFn, scheduleSqlJob, lightdashApi, getSqlRunnerCompleteJob,
    settle, emit.
  rewrite vars_eta. fold url. simpl. rewrite Hs; simpl. rewrite Hj; simpl.
  rewrite He; simpl. now rewrite Hd.
Qed.




End SqlQueryRunProperties.

Section KeepPreviousData.
Import Async SqlQueryRun.
Variables ResultRow SqlColumn : Type.

Let Server : Type := SqlQueryRun.Server ResultRow SqlColumn.
Let HookState : Type := SqlQueryRun.HookState ResultRow SqlColumn.
Let Data : Type := option (ResultsAndColumns ResultRow SqlColumn).
Let Callback : Type := SqlQueryRun.Callback ResultRow SqlColumn.

Variable caller : Callback.
Variable projectUuid : string.

(** What a settled run leaves in the state. *)
Lemma mutate_state (srv : Server) (st : HookState) (vars : SqlRunnerBody) :
  snd (mutate caller srv projectUuid st vars)
  = {| data := match outcome (mutationFn srv projectUuid vars) with
               | inr newData => newData
               | inl _ => data st
               end;
       previousDataRef := data st;
       isLoading := false |}.
Proof.
  unfold mutate, mutate_settle, onSuccess, onError.
  destruct (outcome (mutationFn srv projectUuid vars)) as [e | d]; [reflexivity |].
  now destruct (caller d).
Qed.

Lemma session_snoc (runs : list (Server * SqlRunnerBody)) (srv : Server)
      (vars : SqlRunnerBody) :
  session caller projectUuid (runs ++ [(srv, vars)])
  = snd (mutate caller srv projectUuid (session caller projectUuid runs) vars).
Proof.
  unfold session. now rewrite fold_left_app.
Qed.

Lemma latest_result_snoc (runs : list (Server * SqlRunnerBody)) (srv : Server)
      (vars : SqlRunnerBody) :
  latest_result projectUuid (runs ++ [(srv, vars)])
  = match outcome (mutationFn srv projectUuid vars) with
    | inr newData => newData
    | inl _ => latest_result projectUuid runs
    end.
Proof.
  unfold latest_result. now rewrite fold_left_app.
Qed.

(** Between runs the hook is idle and holds the latest result. *)
Lemma session_idle (runs : list (Server * SqlRunnerBody)) :
  isLoading (session caller projectUuid runs) = false
  /\ data (session caller projectUuid runs) = latest_result projectUuid runs.
Proof.
  induction runs as [| [srv vars] runs [IHl IHd]] using rev_ind.
  - split; reflexivity.
  - rewrite session_snoc, latest_result_snoc, mutate_state; simpl.
    split; [reflexivity |]. now rewrite IHd.
Qed.

(** The data the hook returns around one more run. After any history of
    settled runs, start one more. While it is in flight ([isLoading] is true)
    the hook returns the data it saved when the mutation started, which is
    the latest result so far; that is still so when [onSuccess] has stored
    the new data and the mutation is not yet marked as settled. Once it has
    settled the hook returns the latest result: the value the run resolved
    to, and the data held before when the run failed. A job that ended in
    error with details that are there gives undefined. *)
Theorem useSqlQueryRun_keeps_previous_data
        (runs : list (Server * SqlRunnerBody)) (srv : Server) (vars : SqlRunnerBody) :
  let before := session caller projectUuid runs in
  let in_flight := mutate_start before in
  let settled := snd (mutate caller srv projectUuid before vars) in
  (isLoading in_flight = true
   /\ currentData in_flight = data before
   /\ currentData in_flight = latest_result projectUuid runs)
  /\ (forall newData : Data,
         isLoading (snd (onSuccess caller in_flight newData)) = true
         /\ data (snd (onSuccess caller in_flight newData)) = newData
         /\ currentData (snd (onSuccess caller in_flight newData)) = data before)
  /\ (isLoading settled = false
      /\ currentData settled = latest_result projectUuid (runs ++ [(srv, vars)]))
  /\ (forall newData : Data,
         outcome (mutationFn srv projectUuid vars) = inr newData ->
         currentData settled = newData)
  /\ (forall e,
         outcome (mutationFn srv projectUuid vars) = inl e ->
         currentData settled = currentData before)
  /\ (forall job scheduledJob isError,
         lightdashApi_response
           srv ("/projects/" ++ projectUuid ++ "/sqlRunner/run")%string "POST" vars
         = inr scheduledJob ->
         completeJob_response srv (jobId scheduledJob) = inr job ->
         status job = ERROR ->
         isErrorDetails (details job) = inr isError ->
         currentData settled = None).
Proof.
  intros before in_flight settled.
  destruct (session_idle runs) as [Hidle Hdata].
  fold before in Hidle, Hdata.
  assert (Hsettled : currentData settled
                     = match outcome (mutationFn srv projectUuid vars) with
                       | inr newData => newData
                       | inl _ => data before
                       end).
  { unfold settled. rewrite mutate_state. reflexivity. }
  split; [ | split; [ | split; [ | split; [ | split]]]].
  - unfold in_flight, mutate_start, currentData; simpl. auto.
  - intros newData. repeat split.
  - split.
    + unfold settled. now rewrite mutate_state.
    + rewrite Hsettled, latest_result_snoc. now rewrite Hdata.
  - intros newData H. now rewrite Hsettled, H.
  - intros e H. rewrite Hsettled, H. unfold currentData. now rewrite Hidle.
  - intros job scheduledJob isError Hs Hj He Hg. rewrite Hsettled.
    now rewrite (mutationFn_error_job _ _ projectUuid srv vars job scheduledJob
                   isError Hs Hj He Hg).
Qed.

End KeepPreviousData.

(** ** The hook on the sample inputs *)

Section SqlQueryRunExamples.
Import Async SqlQueryRun SampleRun.

Let accepting : Callback nat string := SampleOperations.accepting_caller.

Example completed_job_resolves_to_its_rows :
  mutate accepting (server completed_job) "project-1" initialState vars
  = ([LightdashApi "/projects/project-1/sqlRunner/run" "POST" vars;
      GetSqlRunnerCompleteJob "job-1";
      GetResultsFromStream (Some "https://files/1");
      OnSuccess (Some {| results := [1; 2; 3]; columns := ["a"; "b"] |})],
     {| data := Some {| results := [1; 2; 3]; columns := ["a"; "b"] |};
        previousDataRef := None;
        isLoading := false |}).
Proof. reflexivity. Qed.



(** C10 at a job that ended with status ERROR and has no details. The guard
    throws where it is asked about them, so the mutation fails instead of
    resolving to undefined: the toast of a failed mutation is shown, and the
    hook goes on returning the previous result. *)
Lemma job_error_without_details_keeps_the_previous_data :
  status bare_failed_job = ERROR
  /\ details bare_failed_job = NoDetails
  /\ mutationFn (server bare_failed_job) "project-1" vars
     = ([LightdashApi "/projects/project-1/sqlRunner/run" "POST" vars;
         GetSqlRunnerCompleteJob "job-1"],
        inl typeError)
  /\ fst (mutate accepting (server bare_failed_job) "project-1"
                 (session accepting "project-1" [(server completed_job, vars)]) vars)
     = [LightdashApi "/projects/project-1/sqlRunner/run" "POST" vars;
        GetSqlRunnerCompleteJob "job-1";
        ShowToastError "Could not fetch SQL query results" None]
  /\ currentData (session accepting "project-1" [(server completed_job, vars)])
     = Some {| results := [1; 2; 3]; columns := ["a"; "b"] |}
  /\ currentData (session accepting "project-1" [(server completed_job, vars);
                                                 (server bare_failed_job, vars)])
     = Some {| results := [1; 2; 3]; columns := ["a"; "b"] |}.
Proof.
  repeat split.
Qed.

Lemma useSqlQueryRun_keeps_previous_data_witness :
  currentData (mutate_start (session accepting "project-1" [(server completed_job, vars)]))
  = Some {| results := [1; 2; 3]; columns := ["a"; "b"] |}
  /\ currentData (session accepting "project-1" [(server completed_job, vars);
                                                 (server failed_job, vars)])
     = None
  /\ currentData (session accepting "project-1" [(server completed_job, vars);
                                                 (server empty_job, vars)])
     = Some {| results := [1; 2; 3]; columns := ["a"; "b"] |}.
Proof.
  pose proof (useSqlQueryRun_keeps_previous_data
                nat string accepting "project-1" [(server completed_job, vars)]) as H.
  split; [ | split].
  - destruct (H (server failed_job) vars) as [[_ [_ Hflight]] _].
    rewrite Hflight. reflexivity.
  - destruct (H (server failed_job) vars) as [_ [_ [_ [_ [_ Herr]]]]].
    exact (Herr failed_job {| jobId := "job-1" |} true eq_refl eq_refl eq_refl eq_refl).
  - destruct (H (server empty_job) vars) as [_ [_ [_ [_ [Hfail _]]]]].
    exact (eq_trans (Hfail {| errorName := "Error"; errorMessage := "No URL" |} eq_refl)
                    eq_refl).
Defined.

End SqlQueryRunExamples.

(** * Properties of the create-group modal *)

Section CreateGroupModalProperties.
Import Async CreateGroupModal.

Lemma trimStart_nil_iff (s : jsstring) :
  trimStart s = [] <-> forallb isWhiteSpace s = true.
Proof.
  induction s as [| c s IH]; simpl.
  - tauto.
  - destruct (isWhiteSpace c); simpl; [exact IH |].
    split; discriminate.
Qed.

Lemma trimStart_blank_iff (s : jsstring) :
  forallb isWhiteSpace (trimStart s) = true <-> forallb isWhiteSpace s = true.
Proof.
  induction s as [| c s IH]; simpl.
  - tauto.
  - destruct (isWhiteSpace c) eqn:Hc; simpl; [exact IH |].
    rewrite Hc. simpl. tauto.
Qed.

Lemma forallb_rev {A} (p : A -> bool) (l : list A) :
  forallb p (rev l) = forallb p l.
Proof.
  induction l as [| a l IH]; simpl; [reflexivity |].
  rewrite forallb_app, IH; simpl. rewrite andb_true_r. apply andb_comm.
Qed.

Lemma rev_nil_iff {A} (l : list A) : rev l = [] <-> l = [].
Proof.
  split; intros H.
  - rewrite <- (rev_involutive l), H. reflexivity.
  - now subst.
Qed.

(** Trimming leaves nothing exactly of the strings made of white space. *)
Lemma trim_nil_iff (s : jsstring) :
  trim s = [] <-> forallb isWhiteSpace s = true.
Proof.
  unfold trim, trimEnd. split; intros H.
  - apply (proj1 (trimStart_blank_iff s)). rewrite <- forallb_rev.
    apply (proj1 (trimStart_nil_iff _)). apply (proj1 (rev_nil_iff _)). exact H.
  - apply (proj2 (rev_nil_iff _)). apply (proj2 (trimStart_nil_iff _)).
    rewrite forallb_rev. apply (proj2 (trimStart_blank_iff s)). exact H.
Qed.

Lemma not_blank_iff (s : jsstring) :
  forallb isWhiteSpace s <> true <-> exists c, In c s /\ isWhiteSpace c = false.
Proof.
  induction s as [| c s IH]; simpl.
  - split; [intros H; now elim H | intros [c [[] _]]].
  - destruct (isWhiteSpace c) eqn:Hc; simpl.
    + rewrite IH. split.
      * intros [c' [Hin Hw]]. exists c'. auto.
      * intros [c' [[E | Hin] Hw]]; [congruence | exists c'; auto].
    + split; [ | discriminate]. intros _. exists c. auto.
Qed.

Lemma validate_name_accepts_iff (value : jsstring) :
  validate_name value = None <-> trim value <> [].
Proof.
  unfold validate_name. destruct (trim value); simpl.
  - split; [discriminate | intros H; now elim H].
  - split; [discriminate | reflexivity].
Qed.

(** C7. The validation accepts a group name if and only if its trim is not
    empty, that is, if and only if the name has a character that is not
    white space. A submitted name that is empty or all white space fails
    with "Group name is required", and the submit leaves the error on the
    form without calling the create-group mutation. *)
Theorem group_name_validation (m : Mutation) (f : Form) :
  let value := name (values f) in
  (validate_name value = None <-> trim value <> [])
  /\ (validate_name value = None <-> exists c, In c value /\ isWhiteSpace c = false)
  /\ (forallb isWhiteSpace value = true ->
      validate_name value = Some "Group name is required"
      /\ submit m f
         = resolve {| values := values f; errors := Some "Group name is required" |}
      /\ existsb is_mutation (events (submit m f)) = false).
Proof.
  intros value.
  split; [apply validate_name_accepts_iff | split].
  - rewrite validate_name_accepts_iff, trim_nil_iff. apply not_blank_iff.
  - intros Hblank. apply trim_nil_iff in Hblank.
    assert (Hv : validate_name value = Some "Group name is required").
    { unfold validate_name. now rewrite Hblank. }
    unfold submit, form_onSubmit. fold value. rewrite Hv.
    repeat split.
Qed.

(** An accepted name goes to the mutation as it was typed. *)
Lemma accepted_name_is_submitted (m : Mutation) (f : Form) :
  validate_name (name (values f)) = None ->
  exists rest, events (submit m f) = MutateAsync (values f) :: rest.
Proof.
  intros Hv. unfold submit, form_onSubmit. rewrite Hv.
  unfold handleSubmit, mutateAsync, settle, emit, events; simpl.
  destruct (m (values f)); simpl; eexists; reflexivity.
Qed.

(** C9. For a user whose ability cannot manage groups the component returns
    null, whether the modal is opened or not and whatever the form holds. *)
Theorem no_manage_permission_renders_nothing
        (props : ModalProps) (f : Form) (user : User) (isLoading : bool)
        (d : UserData) (a : Ability) :
  data user = Some d ->
  ability d = Some a ->
  cannot a "manage" "Group" = true ->
  CreateGroupModal props f user isLoading = None.
Proof.
  intros Hd Ha Hc. unfold CreateGroupModal, cannot_manage_group.
  rewrite Hd, Ha; simpl. now rewrite Hc.
Qed.

End CreateGroupModalProperties.

(** ** The modal on the sample inputs *)

Section CreateGroupModalExamples.
Import Async CreateGroupModal SampleModal.

Example padded_name_trims_to_its_letters : trim padded_name = [113; 97]%N.
Proof. reflexivity. Qed.

Example padded_name_is_created :
  submit accepting (form_with padded_name)
  = ([MutateAsync {| name := padded_name |}; OnClose], inr initialForm).
Proof. reflexivity. Qed.

Lemma group_name_validation_witness :
  validate_name blank_name = Some "Group name is required"
  /\ existsb is_mutation (events (submit accepting (form_with blank_name))) = false.
Proof.
  destruct (proj2 (proj2 (group_name_validation accepting (form_with blank_name)))
                  eq_refl)
    as [Hv [_ Hm]].
  split; [exact Hv | exact Hm].
Defined.

Lemma no_manage_permission_renders_nothing_witness :
  CreateGroupModal {| opened := true |} (form_with padded_name) member false = None
  /\ CreateGroupModal {| opened := false |} (form_with padded_name) member false = None.
Proof.
  split;
    apply (no_manage_permission_renders_nothing
             _ _ member _ {| ability := Some {| cannot := fun _ _ => true |} |}
             {| cannot := fun _ _ => true |});
    reflexivity.
Defined.

(** While the user has not loaded there is no ability to ask, and the
    component renders the modal. *)
Example loading_user_sees_the_form :
  CreateGroupModal {| opened := true |} initialForm loading_user true
  = Some {| modalOpened := true;
            modalTitle := "Create group";
            inputLabel := "Group name";
            inputDisabled := true;
            inputValue := [];
            inputError := None;
            buttonDisabled := true;
            buttonLabel := "Create group" |}.
Proof. reflexivity. Qed.

Example admin_sees_the_form :
  CreateGroupModal {| opened := true |} initialForm admin false
  = Some {| modalOpened := true;
            modalTitle := "Create group";
            inputLabel := "Group name";
            inputDisabled := false;
            inputValue := [];
            inputError := None;
            buttonDisabled := false;
            buttonLabel := "Create group" |}.
Proof. reflexivity. Qed.

End CreateGroupModalExamples.

(** * Further properties of the semantic-layer service *)

Section ServiceOperations.
Import Async SemanticLayerService.
Variables SemanticLayerQuery SemanticLayerView SemanticLayerField
          SemanticLayerSelectedFields ResultRow : Type.

Let Service : Type :=
  SemanticLayerService.Service SemanticLayerQuery SemanticLayerView SemanticLayerField
                               SemanticLayerSelectedFields ResultRow.
Let Payload : Type := SemanticLayerQueryPayload SemanticLayerQuery.

Variable this : Service.

Let missing_config : LightdashError := MissingConfigError "No semantic layer available".

(** A check that resolves has made the lookup and nothing else. *)
Lemma checkCanViewProject_resolved (user : SessionUser) (projectUuid : string)
      (project : Project) :
  outcome (checkCanViewProject this user projectUuid) = inr project ->
  checkCanViewProject this user projectUuid = ([ProjectModelGet projectUuid], inr project).
Proof.
  intros H.
  pose proof (checkCanViewProject_events _ _ _ _ _ this user projectUuid) as Hev.
  destruct (checkCanViewProject this user projectUuid) as [tr r].
  unfold outcome, events in *; simpl in *. now subst.
Qed.

Lemma getSemanticLayerClient_unconfigured (projectUuid : string) :
  ~ dbtCloud_configured (lightdashConfig this) ->
  ~ cube_configured (lightdashConfig this) ->
  getSemanticLayerClient this projectUuid = reject missing_config.
Proof.
  intros Hd Hc.
  destruct (getSemanticLayerClient_cases _ _ _ _ _ this projectUuid)
    as [[Hd' _] | [[_ [Hc' _]] | [_ [_ E]]]]; [tauto | tauto | exact E].
Qed.

Lemma forEach_writes (batches : list (list ResultRow)) :
  forEach batches
          (fun rows =>
             forEach rows
                     (fun row : ResultRow =>
                        @emit (Event SemanticLayerQuery SemanticLayerSelectedFields ResultRow)
                              LightdashError (FileWrite row)))
  = (map FileWrite (concat batches), inr tt).
Proof.
  exact (forEach_batches SemanticLayerQuery SemanticLayerSelectedFields ResultRow batches).
Qed.

(** Runs [streamQueryIntoFile] with the client selected as [Hclient] says,
    up to the batches of the stream and the way it ends. *)
Ltac stream_into_file Hclient :=
  unfold streamQueryIntoFile; cbv zeta; rewrite Hclient;
  unfold streamFunction, streamResults_of, settle, emit, resolve, events, thrown; simpl;
  match goal with
  | |- context [client_streamResults ?c ?p ?q] =>
      destruct (client_streamResults c p q) as [?batches [?e | []]]; simpl
  end;
  match goal with
  | |- context [forEach ?b _] =>
      let H := fresh in
      pose proof (forEach_writes b) as H;
      unfold emit in H; rewrite H; clear H; simpl
  end;
  try match goal with
      | |- context [downloadFileModel ?t ?u] =>
          destruct (downloadFileModel t u); simpl
      end;
  rewrite ?app_nil_r.

Lemma only_writes_in_writes (rows : list ResultRow) :
  filter (@is_file_write SemanticLayerQuery SemanticLayerSelectedFields ResultRow)
         (map FileWrite rows) = map FileWrite rows.
Proof.
  induction rows as [| r rows IH]; simpl; [reflexivity | now rewrite IH].
Qed.

(** X1. For a caller who may view the project, with a client configured,
    [getStreamingResults] hands the scheduler one job, for the project, the
    caller's user uuid, the query and the context "semanticViewer", and
    answers as the scheduler does; it calls no method of the client. *)
Theorem getStreamingResults_schedules_the_request
        (user : SessionUser) (projectUuid : string) (query : SemanticLayerQuery)
        (client : SelectedClient) :
  may_view this user projectUuid ->
  getSemanticLayerClient this projectUuid = resolve client ->
  let payload :=
    {| payloadUserUuid := userUuid user;
       payloadProjectUuid := projectUuid;
       payloadQuery := query;
       payloadContext := "semanticViewer" |} in
  getStreamingResults this user projectUuid query
  = ([ProjectModelGet projectUuid; SchedulerSemanticLayerStreamingResults payload],
     schedulerClient this payload).
Proof.
  intros [project Hview] Hclient payload.
  unfold getStreamingResults.
  rewrite (checkCanViewProject_resolved user projectUuid project Hview), Hclient.
  unfold semanticLayerStreamingResults, settle, emit, resolve; simpl.
  fold payload. now destruct (schedulerClient this payload).
Qed.

(** X2. For a caller who may view the project, when neither the dbt Cloud
    pair nor the Cube pair is set, [getFields], [getSql] and
    [getStreamingResults] throw the [MissingConfigError] right after the
    project lookup: no client is called and no job is scheduled. *)
Theorem missing_config_stops_after_the_check
        (user : SessionUser) (projectUuid view : string)
        (selectedFields : SemanticLayerSelectedFields) (query : SemanticLayerQuery) :
  may_view this user projectUuid ->
  ~ dbtCloud_configured (lightdashConfig this) ->
  ~ cube_configured (lightdashConfig this) ->
  getFields this user projectUuid view selectedFields
  = ([ProjectModelGet projectUuid], inl missing_config)
  /\ getSql this user projectUuid query
     = ([ProjectModelGet projectUuid], inl missing_config)
  /\ getStreamingResults this user projectUuid query
     = ([ProjectModelGet projectUuid], inl missing_config).
Proof.
  intros [project Hview] Hd Hc.
  unfold getFields, getSql, getStreamingResults.
  rewrite (checkCanViewProject_resolved user projectUuid project Hview).
  rewrite (getSemanticLayerClient_unconfigured projectUuid Hd Hc).
  repeat split.
Qed.

(** X3. For a caller who may view the project, with a client configured,
    [getViews] calls [getViews] of the selected client once and answers with
    its views, or throws what it threw. The analytics event is tracked as
    started before the call, and afterwards as completed with the number of
    views, or as error. *)
Theorem getViews_returns_the_client_views
        (user : SessionUser) (projectUuid : string) (project : Project)
        (client : SelectedClient) :
  outcome (checkCanViewProject this user projectUuid) = inr project ->
  getSemanticLayerClient this projectUuid = resolve client ->
  let tracked suffix viewCount :=
    AnalyticsTrack ("semantic_layer.get_views" ++ suffix)%string (userUuid user)
                   (organizationUuid project) projectUuid viewCount in
  getViews this user projectUuid
  = match client_getViews (clientImpl this client) with
    | inr views =>
        ([ProjectModelGet projectUuid; tracked ".started" None; ClientGetViews client;
          tracked ".completed" (Some (length views))],
         inr views)
    | inl e =>
        ([ProjectModelGet projectUuid; tracked ".started" None; ClientGetViews client;
          tracked ".error" None],
         inl e)
    end.
Proof.
  intros Hview Hclient tracked.
  unfold getViews.
  rewrite (checkCanViewProject_resolved user projectUuid project Hview), Hclient.
  unfold wrapEvent, getViews_of, track, try_catch, settle, emit, resolve, reject; simpl.
  now destruct (client_getViews (clientImpl this client)).
Qed.

(** X4. When neither pair is set, [streamQueryIntoFile] throws the
    [MissingConfigError] after its debug line: nothing is streamed, written
    or uploaded. *)
Theorem streamQueryIntoFile_needs_a_client (payload : Payload) :
  ~ dbtCloud_configured (lightdashConfig this) ->
  ~ cube_configured (lightdashConfig this) ->
  streamQueryIntoFile this payload
  = ([LoggerDebug ("Streaming query into file for project "
                     ++ payloadProjectUuid payload)%string],
     inl missing_config).
Proof.
  intros Hd Hc. unfold streamQueryIntoFile.
  now rewrite (getSemanticLayerClient_unconfigured (payloadProjectUuid payload) Hd Hc).
Qed.

(** X5. With a client configured, [streamQueryIntoFile] streams the
    payload's query for the payload's project through the selected client,
    and right after that call it writes the rows of the batches the client
    hands over, batch after batch and in the order they come; these are all
    the rows it writes. That is so also when the stream throws after some
    batches: their rows have been written, and the error is thrown on. *)
Theorem streamQueryIntoFile_writes_every_row
        (payload : Payload) (client : SelectedClient) :
  getSemanticLayerClient this (payloadProjectUuid payload) = resolve client ->
  let projectUuid := payloadProjectUuid payload in
  let stream :=
    client_streamResults (clientImpl this client) projectUuid (payloadQuery payload) in
  (exists rest,
      events (streamQueryIntoFile this payload)
      = [LoggerDebug ("Streaming query into file for project " ++ projectUuid)%string;
         ClientStreamResults client projectUuid (payloadQuery payload)]
          ++ map FileWrite (concat (fst stream)) ++ rest
      /\ filter (@is_file_write _ _ _) rest = [])
  /\ filter (@is_file_write _ _ _) (events (streamQueryIntoFile this payload))
     = map FileWrite (concat (fst stream))
  /\ (forall e, snd stream = inl e ->
                thrown (streamQueryIntoFile this payload) = Some e).
Proof.
  intros Hclient projectUuid stream. subst projectUuid stream.
  split; [ | split].
  - stream_into_file Hclient;
      [exists [] | eexists [_] | eexists [_]];
      rewrite ?app_nil_r; split; reflexivity.
  - stream_into_file Hclient;
      rewrite ?filter_app, only_writes_in_writes; simpl;
      now rewrite ?app_nil_r.
  - intros e He. revert He. stream_into_file Hclient; intros He;
      try discriminate; now inversion He.
Qed.

(** X6. [streamQueryIntoFile] reads the project and the query of its payload
    and nothing else: two payloads that differ only in the user uuid or the
    context give the same calls and the same answer. *)
Theorem streamQueryIntoFile_ignores_user_and_context (payload1 payload2 : Payload) :
  payloadProjectUuid payload1 = payloadProjectUuid payload2 ->
  payloadQuery payload1 = payloadQuery payload2 ->
  streamQueryIntoFile this payload1 = streamQueryIntoFile this payload2.
Proof.
  intros Hp Hq. unfold streamQueryIntoFile. now rewrite Hp, Hq.
Qed.

Lemma no_client_call_in_writes (rows : list ResultRow) :
  filter (@is_client_call SemanticLayerQuery SemanticLayerSelectedFields ResultRow)
         (map FileWrite rows) = [].
Proof.
  induction rows as [| r rows IH]; simpl; auto.
Qed.

(** X7. The job that [getStreamingResults] schedules is one that
    [streamQueryIntoFile] can run: under the same configuration it carries
    the caller's user uuid, and running it makes one client call, the stream
    of the requested query for the requested project through the selected
    client. *)
Theorem scheduled_job_streams_the_request
        (user : SessionUser) (projectUuid : string) (query : SemanticLayerQuery)
        (client : SelectedClient) (payload : Payload) :
  may_view this user projectUuid ->
  getSemanticLayerClient this projectUuid = resolve client ->
  In (SchedulerSemanticLayerStreamingResults payload)
     (events (getStreamingResults this user projectUuid query)) ->
  payloadUserUuid payload = userUuid user
  /\ filter (@is_client_call _ _ _) (events (streamQueryIntoFile this payload))
     = [ClientStreamResults client projectUuid query].
Proof.
  intros [project Hview] Hclient Hin.
  unfold getStreamingResults in Hin.
  rewrite (checkCanViewProject_resolved user projectUuid project Hview), Hclient in Hin.
  unfold semanticLayerStreamingResults, settle, emit, resolve, events in Hin;
    simpl in Hin.
  assert (Hpayload : payload
                     = {| payloadUserUuid := userUuid user;
                          payloadProjectUuid := projectUuid;
                          payloadQuery := query;
                          payloadContext := "semanticViewer" |}).
  { destruct (schedulerClient this _); simpl in Hin;
      destruct Hin as [H | [H | []]]; try discriminate; now inversion H. }
  subst payload. split; [reflexivity |].
  simpl in *.
  stream_into_file Hclient;
    rewrite ?filter_app, ?no_client_call_in_writes; reflexivity.
Qed.

End ServiceOperations.

(** * Further properties of the SQL-runner hook *)

Section HookOperations.
Import Async SqlQueryRun.
Variables ResultRow SqlColumn : Type.

Let Server : Type := SqlQueryRun.Server ResultRow SqlColumn.
Let HookState : Type := SqlQueryRun.HookState ResultRow SqlColumn.
Let Job : Type := SqlQueryRun.Job SqlColumn.
Let UiEvent : Type := SqlQueryRun.UiEvent ResultRow SqlColumn.
Let Callback : Type := SqlQueryRun.Callback ResultRow SqlColumn.

Variable projectUuid : string.

Let url : string := ("/projects/" ++ projectUuid ++ "/sqlRunner/run")%string.

(** Unfolds a run of the mutation function up to the answers of the server. *)
Ltac run_mutationFn :=
  unfold mutationFn, scheduleSqlJob, lightdashApi, getSqlRunnerCompleteJob,
    getResultsFromStream, has_results, showToastError, settle, emit, resolve;
  rewrite vars_eta; fold url; simpl.

(** The run of the mutation function on a job that did not end in error:
    the stream is asked for the file of the details, if they name one. *)
Lemma mutationFn_finished_job (srv : Server) (vars : SqlRunnerBody) (job : Job)
      (scheduledJob : ApiJobScheduled) :
  lightdashApi_response srv url "POST" vars = inr scheduledJob ->
  completeJob_response srv (jobId scheduledJob) = inr job ->
  status job <> ERROR ->
  mutationFn srv projectUuid vars
  = ([LightdashApi url "POST" vars; GetSqlRunnerCompleteJob (jobId scheduledJob);
      GetResultsFromStream (details_fileUrl (details job))],
     match stream_response srv (details_fileUrl (details job)) with
     | inr rows =>
         inr (Some {| results := rows; columns := details_columns (details job) |})
     | inl e => inl e
     end).
Proof.
  intros Hs Hj He. run_mutationFn. rewrite Hs; simpl. rewrite Hj; simpl.
  assert (Hne : status_is_error (status job) = false)
    by (destruct (status job); auto; now elim He).
  rewrite Hne.
  destruct (details job) as [| err | fileUrl cols]; simpl;
    match goal with
    | |- context [stream_response srv ?u] => now destruct (stream_response srv u)
    end.
Qed.

(** X8. When the job the mutation waited for did not end in error and its
    details name a file, the mutation fetches the results from that file's
    URL, once, and resolves to the rows of the stream with the columns of the
    details; when the stream fails, the mutation fails with its error. *)
Theorem finished_job_resolves_to_its_rows
        (srv : Server) (vars : SqlRunnerBody) (job : Job)
        (scheduledJob : ApiJobScheduled) (fileUrl : string) (cols : list SqlColumn) :
  lightdashApi_response srv url "POST" vars = inr scheduledJob ->
  completeJob_response srv (jobId scheduledJob) = inr job ->
  status job <> ERROR ->
  details job = FileDetails fileUrl cols ->
  mutationFn srv projectUuid vars
  = ([LightdashApi url "POST" vars; GetSqlRunnerCompleteJob (jobId scheduledJob);
      GetResultsFromStream (Some fileUrl)],
     match stream_response srv (Some fileUrl) with
     | inr rows => inr (Some {| results := rows; columns := cols |})
     | inl e => inl e
     end).
Proof.
  intros Hs Hj He Hd.
  rewrite (mutationFn_finished_job srv vars job scheduledJob Hs Hj He), Hd.
  reflexivity.
Qed.

(** X9. When the job did not end in error but its details are missing, or
    are error details, the mutation still asks for the stream, with an
    undefined URL; if that resolves, the result has its rows and no columns. *)
Theorem finished_job_without_file_streams_no_url
        (srv : Server) (vars : SqlRunnerBody) (job : Job)
        (scheduledJob : ApiJobScheduled) :
  lightdashApi_response srv url "POST" vars = inr scheduledJob ->
  completeJob_response srv (jobId scheduledJob) = inr job ->
  status job <> ERROR ->
  details job = NoDetails \/ (exists err, details job = ErrorDetails err) ->
  mutationFn srv projectUuid vars
  = ([LightdashApi url "POST" vars; GetSqlRunnerCompleteJob (jobId scheduledJob);
      GetResultsFromStream None],
     match stream_response srv None with
     | inr rows => inr (Some {| results := rows; columns := [] |})
     | inl e => inl e
     end).
Proof.
  intros Hs Hj He Hd.
  rewrite (mutationFn_finished_job srv vars job scheduledJob Hs Hj He).
  destruct Hd as [Hd | [err Hd]]; rewrite Hd; reflexivity.
Qed.

(** X10. A request that fails ends the run with its error: when the job
    cannot be scheduled, its status is never asked for; when the status
    request fails, no stream is fetched; and no toast is shown by the
    mutation function itself. *)
Theorem failed_request_ends_the_run
        (srv : Server) (vars : SqlRunnerBody) (e : ApiError) :
  (lightdashApi_response srv url "POST" vars = inl e ->
   mutationFn srv projectUuid vars = ([LightdashApi url "POST" vars], inl e))
  /\ (forall scheduledJob,
         lightdashApi_response srv url "POST" vars = inr scheduledJob ->
         completeJob_response srv (jobId scheduledJob) = inl e ->
         mutationFn srv projectUuid vars
         = ([LightdashApi url "POST" vars; GetSqlRunnerCompleteJob (jobId scheduledJob)],
            inl e)).
Proof.
  split.
  - intros Hs. run_mutationFn. now rewrite Hs.
  - intros scheduledJob Hs Hj. run_mutationFn. rewrite Hs; simpl. now rewrite Hj.
Qed.

(** The mutation function calls the server and may show the toast of a job
    error; it never calls the caller back and never shows the toast of a
    failed mutation. *)
Lemma mutationFn_events_kinds (srv : Server) (vars : SqlRunnerBody) (ev : UiEvent) :
  In ev (events (mutationFn srv projectUuid vars)) ->
  (forall d, ev <> OnSuccess d)
  /\ ev <> ShowToastError "Could not fetch SQL query results" None.
Proof.
  assert (listed : forall evs : list UiEvent,
             Forall (fun e => (forall d, e <> OnSuccess d)
                              /\ e <> ShowToastError "Could not fetch SQL query results"
                                                     None) evs ->
             In ev evs ->
             (forall d, ev <> OnSuccess d)
             /\ ev <> ShowToastError "Could not fetch SQL query results" None).
  { intros evs Hall Hin. rewrite Forall_forall in Hall. now apply Hall. }
  apply listed. run_mutationFn. unfold events.
  destruct (lightdashApi_response srv url "POST" vars) as [e | scheduledJob]; simpl;
    [repeat constructor; discriminate |].
  destruct (completeJob_response srv (jobId scheduledJob)) as [e | job]; simpl;
    [repeat constructor; discriminate |].
  destruct (status_is_error (status job)); simpl;
    destruct (details job) as [| err | fileUrl cols]; simpl;
    try match goal with
        | |- context [stream_response srv ?u] => destruct (stream_response srv u)
        end; simpl;
    repeat constructor; discriminate.
Qed.

(** X11. The caller's [onSuccess] is called with a value exactly when the
    mutation function resolved to that value, and that value is then the
    data the hook holds and returns, whether the callback returns or throws.
    The toast "Could not fetch SQL query results" is shown exactly when the
    mutation function failed or the caller's [onSuccess] threw. So with a
    callback that does not throw, a run ends in the callback or in that
    toast, never both. *)
Theorem onSuccess_gets_what_the_hook_keeps
        (caller : Callback) (srv : Server) (st : HookState) (vars : SqlRunnerBody) :
  let run := mutate caller srv projectUuid st vars in
  (forall d,
      In (OnSuccess d) (fst run) <-> outcome (mutationFn srv projectUuid vars) = inr d)
  /\ (forall d,
         In (OnSuccess d) (fst run) -> data (snd run) = d /\ currentData (snd run) = d)
  /\ (In (ShowToastError "Could not fetch SQL query results" None) (fst run)
      <-> (exists e, outcome (mutationFn srv projectUuid vars) = inl e)
          \/ (exists d e,
                 outcome (mutationFn srv projectUuid vars) = inr d /\ caller d = inl e))
  /\ ((forall d, exists u, caller d = inr u) ->
      forall d,
        In (OnSuccess d) (fst run) ->
        ~ In (ShowToastError "Could not fetch SQL query results" None) (fst run)).
Proof.
  intros run.
  assert (Hno : forall ev,
             In ev (events (mutationFn srv projectUuid vars)) ->
             (forall d, ev <> OnSuccess d)
             /\ ev <> ShowToastError "Could not fetch SQL query results" None)
    by (intros ev; apply mutationFn_events_kinds).
  assert (Hcb : forall d,
             In (OnSuccess d) (fst run)
             <-> outcome (mutationFn srv projectUuid vars) = inr d).
  { intros d. unfold run, mutate, mutate_settle, onSuccess, onError.
    destruct (outcome (mutationFn srv projectUuid vars)) as [e | d'] eqn:Ho; simpl.
    - rewrite in_app_iff; simpl. split; [ | discriminate].
      intros [H | [H | []]]; [ | discriminate].
      now destruct (proj1 (Hno _ H) d).
    - destruct (caller d'); simpl; rewrite in_app_iff; simpl; split.
      + intros [H | [H | [H | []]]];
          [now destruct (proj1 (Hno _ H) d) | now inversion H | discriminate].
      + intros H; inversion H; auto.
      + intros [H | [H | []]];
          [now destruct (proj1 (Hno _ H) d) | now inversion H].
      + intros H; inversion H; auto. }
  assert (Htoast : In (ShowToastError "Could not fetch SQL query results" None) (fst run)
                   <-> (exists e, outcome (mutationFn srv projectUuid vars) = inl e)
                       \/ (exists d e,
                              outcome (mutationFn srv projectUuid vars) = inr d
                              /\ caller d = inl e)).
  { unfold run, mutate, mutate_settle, onSuccess, onError.
    destruct (outcome (mutationFn srv projectUuid vars)) as [e | d'] eqn:Ho; simpl.
    - rewrite in_app_iff; simpl. split; [intros _; left; now exists e | auto].
    - destruct (caller d') as [e |] eqn:Hc; simpl; rewrite in_app_iff; simpl; split.
      + intros _. right. now exists d', e.
      + auto.
      + intros [H | H]; [now destruct (proj2 (Hno _ H)) |].
        repeat destruct H as [H | H]; try contradiction; discriminate.
      + intros [[e H] | [d [e [H Hc']]]]; [discriminate |].
        inversion H; subst d. congruence. }
  split; [exact Hcb | split; [ | split; [exact Htoast |]]].
  - intros d Hin. apply Hcb in Hin.
    unfold run. rewrite (mutate_state ResultRow SqlColumn caller projectUuid srv st vars), Hin.
    split; reflexivity.
  - intros Hreturns d Hin Ht. apply Hcb in Hin. apply Htoast in Ht.
    destruct Ht as [[e He] | [d' [e [Hd He]]]]; [congruence |].
    destruct (Hreturns d') as [u Hu]. congruence.
Qed.

End HookOperations.

(** * Further properties of the create-group modal *)

Section ModalOperations.
Import Async CreateGroupModal.

Let required : string := "Group name is required".

(** The validation looks at nothing but whether the name is all white space. *)
Lemma validate_name_blank (value : jsstring) :
  validate_name value = if forallb isWhiteSpace value then Some required else None.
Proof.
  destruct (forallb isWhiteSpace value) eqn:Hb.
  - apply trim_nil_iff in Hb. unfold validate_name. now rewrite Hb.
  - apply validate_name_accepts_iff. intros H. apply trim_nil_iff in H. congruence.
Qed.

(** X12. White space around a name does not change what the validation says
    of it. *)
Theorem validation_ignores_surrounding_white_space (before value after : jsstring) :
  forallb isWhiteSpace before = true ->
  forallb isWhiteSpace after = true ->
  validate_name (before ++ value ++ after) = validate_name value.
Proof.
  intros Hb Ha. rewrite !validate_name_blank, !forallb_app, Hb, Ha.
  now rewrite andb_true_r.
Qed.

(** X13. A submit with an accepted name calls the mutation once, with the
    name as it was typed (it is not trimmed). When the mutation resolves the
    form is reset to its initial values and the modal is closed; when it
    fails the submit fails with its error, and the form is neither reset nor
    closed. *)
Theorem accepted_submit_creates_then_resets (m : Mutation) (f : Form) :
  validate_name (name (values f)) = None ->
  submit m f
  = match m (values f) with
    | inr _ => ([MutateAsync (values f); OnClose], inr initialForm)
    | inl e => ([MutateAsync (values f)], inl e)
    end.
Proof.
  intros Hv. unfold submit, form_onSubmit. rewrite Hv.
  unfold handleSubmit, mutateAsync, settle, emit, resolve; simpl.
  now destruct (m (values f)) as [e | []].
Qed.

(** X14. After a submit has resolved, submitting the form it left behind
    again calls no mutation: either the validation had failed and fails
    again, or the group was created and the form was reset to an empty name,
    which the validation refuses. *)
Theorem resubmit_creates_nothing (m m' : Mutation) (f f' : Form) :
  outcome (submit m f) = inr f' ->
  submit m' f' = resolve {| values := values f'; errors := Some required |}
  /\ (values f' = values f \/ f' = initialForm).
Proof.
  unfold submit at 1, form_onSubmit at 1.
  destruct (validate_name (name (values f))) as [message |] eqn:Hv.
  - unfold resolve, outcome; simpl. intros H. inversion H; subst f'; clear H; simpl.
    split; [ | now left].
    unfold submit, form_onSubmit; simpl. rewrite Hv.
    rewrite validate_name_blank in Hv.
    destruct (forallb isWhiteSpace (name (values f))); now inversion Hv.
  - unfold handleSubmit, mutateAsync, settle, emit, resolve, outcome; simpl.
    destruct (m (values f)) as [e | []]; simpl; [discriminate |].
    intros H. inversion H; subst f'. split; [reflexivity | now right].
Qed.

(** X15. The component returns null only for a loaded user whose ability
    cannot manage groups: while the user or the ability is not there yet, and
    for a user who can manage groups, it renders the modal, opened as the
    prop says. *)
Theorem renders_null_iff_cannot_manage
        (props : ModalProps) (f : Form) (user : User) (isLoading : bool) :
  (CreateGroupModal props f user isLoading = None
   <-> exists d a,
         data user = Some d /\ ability d = Some a /\ cannot a "manage" "Group" = true)
  /\ (forall element,
         CreateGroupModal props f user isLoading = Some element ->
         modalOpened element = opened props
         /\ inputDisabled element = isLoading
         /\ buttonDisabled element = isLoading).
Proof.
  unfold CreateGroupModal, cannot_manage_group.
  destruct (data user) as [d |] eqn:Hd; simpl.
  - destruct (ability d) as [a |] eqn:Ha; simpl.
    + destruct (cannot a "manage" "Group") eqn:Hc; split.
      * split; [intros _; exists d, a; auto | reflexivity].
      * discriminate.
      * split; [discriminate |].
        intros [d' [a' [Hd' [Ha' Hc']]]]. inversion Hd'; subst d'.
        rewrite Ha in Ha'. inversion Ha'; subst a'. congruence.
      * intros element H. inversion H. auto.
    + split.
      * split; [discriminate |].
        intros [d' [a' [Hd' [Ha' _]]]]. inversion Hd'; subst d'. congruence.
      * intros element H. inversion H. auto.
  - split.
    + split; [discriminate | intros [d' [a' [Hd' _]]]; discriminate].
    + intros element H. inversion H. auto.
Qed.

End ModalOperations.

(** * Properties of the run-query button *)

Section ButtonProperties.
Import RunSemanticQueryButton.
Variables ResultRow Column SemanticQuery ChartKind VizConfig ChartOptions Runner : Type.
Variable reference : Column -> string.
Variable newRunner : SemanticQuery -> list ResultRow -> list Column -> string -> Runner.
Variable getChartConfigAndOptions : Runner -> ChartKind -> VizConfig -> ChartOptions.

Let Store : Type :=
  RunSemanticQueryButton.Store Column SemanticQuery ChartKind VizConfig.



(** X17. The run button names the limit only when it is set and not zero,
    and then as the string the language makes of that number; the limit
    button falls back to the maximum only when the limit is not set. So with
    a limit of zero the run button shows no limit while the limit button
    shows zero. Both buttons are disabled exactly when no field is selected,
    loading or not. *)
Theorem limit_on_the_buttons
        (numberToString : N -> string) (os : string) (st : Store) (isLoading : bool) :
  let rendered := render numberToString os st isLoading in
  (limit st = None ->
   label (runButton rendered) = "Run query "
   /\ option_map shownLimit (limitButton rendered) = Some (maxQueryLimit st))
  /\ (limit st = Some 0%N ->
      label (runButton rendered) = "Run query "
      /\ option_map shownLimit (limitButton rendered) = Some 0%N)
  /\ (forall n, limit st = Some n -> n <> 0%N ->
                label (runButton rendered)
                = ("Run query (" ++ numberToString n ++ ")")%string
                /\ option_map shownLimit (limitButton rendered) = Some n)
  /\ (disabled (runButton rendered) = true <-> allSelectedFields st = [])
  /\ (option_map limitDisabled (limitButton rendered) = Some true
      <-> allSelectedFields st = []).
Proof.
  intros rendered. unfold rendered, render; simpl.
  split; [ | split; [ | split; [ | split]]].
  - intros H. rewrite H. simpl. split; reflexivity.
  - intros H. rewrite H. simpl. split; reflexivity.
  - intros n H Hn. rewrite H. simpl.
    apply N.eqb_neq in Hn. rewrite Hn. simpl. split; reflexivity.
  - destruct (allSelectedFields st); simpl; split; auto; discriminate.
  - destruct (allSelectedFields st); simpl; split; auto; discriminate.
Qed.

End ButtonProperties.

(** ** The further properties on the sample inputs *)

Section OperationExamples.
Import Async SemanticLayerService Sample.

Let viewer_may_view (config : LightdashConfig) :
  may_view (service config) viewer "project-1".
Proof. eexists; reflexivity. Defined.

Lemma getStreamingResults_schedules_the_request_witness :
  getStreamingResults (service both_configured) viewer "project-1" "revenue"
  = ([ProjectModelGet "project-1";
      SchedulerSemanticLayerStreamingResults
        {| payloadUserUuid := "user-1";
           payloadProjectUuid := "project-1";
           payloadQuery := "revenue";
           payloadContext := "semanticViewer" |}],
     inr "job-1").
Proof.
  exact (getStreamingResults_schedules_the_request
           _ _ _ _ _ (service both_configured) viewer "project-1" "revenue"
           DbtCloudClient (viewer_may_view both_configured) eq_refl).
Defined.

Lemma missing_config_stops_after_the_check_witness :
  getSql (service nothing_configured) viewer "project-1" "revenue"
  = ([ProjectModelGet "project-1"],
     inl (MissingConfigError "No semantic layer available")).
Proof.
  destruct nothing_configured_is_not_configured as [Hd Hc].
  exact (proj1 (proj2 (missing_config_stops_after_the_check
                         _ _ _ _ _ (service nothing_configured) viewer "project-1"
                         "orders" ["orders.id"] "revenue"
                         (viewer_may_view nothing_configured) Hd Hc))).
Defined.

Lemma getViews_returns_the_client_views_witness :
  getViews (service both_configured) viewer "project-1"
  = ([ProjectModelGet "project-1";
      AnalyticsTrack "semantic_layer.get_views.started" "user-1" "org-1" "project-1" None;
      ClientGetViews DbtCloudClient;
      AnalyticsTrack "semantic_layer.get_views.completed" "user-1" "org-1" "project-1"
                     (Some 2)],
     inr ["dbt_orders"; "dbt_customers"]).
Proof.
  exact (getViews_returns_the_client_views
           _ _ _ _ _ (service both_configured) viewer "project-1"
           {| organizationUuid := "org-1" |} DbtCloudClient eq_refl eq_refl).
Defined.

Lemma streamQueryIntoFile_needs_a_client_witness :
  streamQueryIntoFile (service nothing_configured) outsider_payload
  = ([LoggerDebug "Streaming query into file for project project-1"],
     inl (MissingConfigError "No semantic layer available")).
Proof.
  destruct nothing_configured_is_not_configured as [Hd Hc].
  exact (streamQueryIntoFile_needs_a_client
           _ _ _ _ _ (service nothing_configured) outsider_payload Hd Hc).
Defined.

Lemma streamQueryIntoFile_writes_every_row_witness :
  filter (@is_file_write _ _ _)
         (events (streamQueryIntoFile SampleOperations.interrupted_service outsider_payload))
  = [FileWrite 10; FileWrite 20]
  /\ thrown (streamQueryIntoFile SampleOperations.interrupted_service outsider_payload)
     = Some (UpstreamError "connection reset").
Proof.
  destruct (streamQueryIntoFile_writes_every_row
              _ _ _ _ _ SampleOperations.interrupted_service outsider_payload
              CubeClient eq_refl)
    as [_ [Hwrites Hthrown]].
  split; [exact Hwrites | exact (Hthrown _ eq_refl)].
Defined.

Example whole_stream_is_written_and_uploaded :
  streamQueryIntoFile (service cube_only) outsider_payload
  = ([LoggerDebug "Streaming query into file for project project-1";
      ClientStreamResults CubeClient "project-1" "revenue";
      FileWrite 10; FileWrite 20; FileWrite 30;
      FileUpload
        "https://lightdash.example.com/api/v2/projects/project-1/semantic-layer/results"],
     inr
       "https://lightdash.example.com/api/v2/projects/project-1/semantic-layer/results/file-1").
Proof. reflexivity. Qed.

Lemma streamQueryIntoFile_ignores_user_and_context_witness :
  streamQueryIntoFile (service both_configured) outsider_payload
  = streamQueryIntoFile (service both_configured)
      {| payloadUserUuid := "user-1";
         payloadProjectUuid := "project-1";
         payloadQuery := "revenue";
         payloadContext := "scheduledDelivery" |}.
Proof.
  exact (streamQueryIntoFile_ignores_user_and_context
           _ _ _ _ _ (service both_configured) outsider_payload _ eq_refl eq_refl).
Defined.

Lemma scheduled_job_streams_the_request_witness :
  filter (@is_client_call _ _ _)
         (events (streamQueryIntoFile
                    (service both_configured)
                    {| payloadUserUuid := "user-1";
                       payloadProjectUuid := "project-1";
                       payloadQuery := "revenue";
                       payloadContext := "semanticViewer" |}))
  = [ClientStreamResults DbtCloudClient "project-1" "revenue"].
Proof.
  exact (proj2 (scheduled_job_streams_the_request
                  _ _ _ _ _ (service both_configured) viewer "project-1" "revenue"
                  DbtCloudClient _ (viewer_may_view both_configured) eq_refl
                  (or_intror (or_introl eq_refl)))).
Defined.

End OperationExamples.

Section HookOperationExamples.
Import Async SqlQueryRun SampleRun SampleOperations.

Lemma finished_job_resolves_to_its_rows_witness :
  mutationFn (server completed_job) "project-1" vars
  = ([LightdashApi "/projects/project-1/sqlRunner/run" "POST" vars;
      GetSqlRunnerCompleteJob "job-1";
      GetResultsFromStream (Some "https://files/1")],
     inr (Some {| results := [1; 2; 3]; columns := ["a"; "b"] |})).
Proof.
  refine (finished_job_resolves_to_its_rows
            nat string "project-1" (server completed_job) vars completed_job
            {| jobId := "job-1" |} "https://files/1" ["a"; "b"]
            eq_refl eq_refl _ eq_refl).
  discriminate.
Defined.

Lemma finished_job_without_file_streams_no_url_witness :
  mutationFn (server empty_job) "project-1" vars
  = ([LightdashApi "/projects/project-1/sqlRunner/run" "POST" vars;
      GetSqlRunnerCompleteJob "job-1";
      GetResultsFromStream None],
     inl {| errorName := "Error"; errorMessage := "No URL" |}).
Proof.
  refine (finished_job_without_file_streams_no_url
            nat string "project-1" (server empty_job) vars empty_job
            {| jobId := "job-1" |} eq_refl eq_refl _ (or_introl eq_refl)).
  discriminate.
Defined.

Lemma failed_request_ends_the_run_witness :
  mutationFn offline_server "project-1" vars
  = ([LightdashApi "/projects/project-1/sqlRunner/run" "POST" vars],
     inl {| errorName := "NetworkError"; errorMessage := "offline" |}).
Proof.
  exact (proj1 (failed_request_ends_the_run
                  nat string "project-1" offline_server vars
                  {| errorName := "NetworkError"; errorMessage := "offline" |})
               eq_refl).
Defined.

(** A caller whose [onSuccess] throws gets the callback and the toast, and
    the hook holds the new data all the same. *)
Example throwing_callback_ends_in_the_toast_too :
  mutate throwing_caller (server completed_job) "project-1" initialState vars
  = ([LightdashApi "/projects/project-1/sqlRunner/run" "POST" vars;
      GetSqlRunnerCompleteJob "job-1";
      GetResultsFromStream (Some "https://files/1");
      OnSuccess (Some {| results := [1; 2; 3]; columns := ["a"; "b"] |});
      ShowToastError "Could not fetch SQL query results" None],
     {| data := Some {| results := [1; 2; 3]; columns := ["a"; "b"] |};
        previousDataRef := None;
        isLoading := false |}).
Proof. reflexivity. Qed.

End HookOperationExamples.

Section ModalOperationExamples.
Import Async CreateGroupModal SampleModal.

Lemma validation_ignores_surrounding_white_space_witness :
  validate_name ([32; 9] ++ padded_name ++ [160])%N = validate_name padded_name.
Proof.
  exact (validation_ignores_surrounding_white_space
           [32; 9]%N padded_name [160]%N eq_refl eq_refl).
Defined.

Lemma accepted_submit_creates_then_resets_witness :
  submit accepting (form_with padded_name)
  = ([MutateAsync {| name := padded_name |}; OnClose], inr initialForm).
Proof.
  exact (accepted_submit_creates_then_resets accepting (form_with padded_name) eq_refl).
Defined.

Lemma resubmit_creates_nothing_witness :
  submit accepting initialForm
  = resolve {| values := initialValues; errors := Some "Group name is required" |}.
Proof.
  exact (proj1 (resubmit_creates_nothing
                  accepting accepting (form_with padded_name) initialForm eq_refl)).
Defined.

End ModalOperationExamples.

Section ButtonExamples.
Import RunSemanticQueryButton SampleOperations.

(** The digits of a number, as the language prints the small integers. *)
Let digits (n : N) : string := NilZero.string_of_uint (N.to_uint n).

Example limit_of_500_is_on_the_label :
  label (runButton (render digits "linux" (store ["orders.id"] (Some 500%N)) false))
  = "Run query (500)".
Proof. reflexivity. Qed.

Example limit_of_zero_is_not_on_the_label :
  label (runButton (render digits "macos" (store ["orders.id"] (Some 0%N)) true))
  = "Run query "
  /\ option_map shownLimit
                (limitButton (render digits "macos" (store ["orders.id"] (Some 0%N)) true))
     = Some 0%N.
Proof. split; reflexivity. Qed.

Example empty_results_are_dispatched :
  resultsEffect (fun c : string => c) (fun _ (rows : list nat) cols _ => (rows, cols))
                (fun runner _ _ => runner)
                (store ["customers.name"; "orders.id"] None) (Some [])
  = [SetResults [] ["orders.id"; "customers.name"];
     OnResults ([], ["orders.id"; "customers.name"])].
Proof. reflexivity. Qed.

End ButtonExamples.
